(** * rewriting-http-proxy: a shallow embedding of [main.go]

    The program is a forward proxy.  [/view/<scheme>/<host>/<path>] fetches
    [<scheme>://<host>/<path>], rewrites the links of HTML pages so that they
    point back into the proxy, applies the caller's regular-expression rules
    to the text nodes and relays the result.  [/] is the control page on which
    rules are added; the rules live in a cookie.

    Go strings are byte strings and are modelled by [string]; a Go slice is a
    [list]; a Go [map] is a [gmap]; a panic is the [Panic] result of the error
    monad below. *)

From Stdlib Require Import Ascii String List Bool Arith Lia.
From stdpp Require Import base option list strings gmap fin_maps.

Local Open Scope string_scope.
Local Open Scope list_scope.

(** ** Results of code that may panic *)

Inductive PanicKind : Type :=
| SliceBoundsOutOfRange
| IndexOutOfRange
| NilPointerDereference.

Inductive Result (A : Type) : Type :=
| Ok (a : A)
| Panic (p : PanicKind).

Arguments Ok {A} a.
Arguments Panic {A} p.

#[global] Instance Result_ret : MRet Result := fun A a => Ok a.

#[global] Instance Result_bind : MBind Result := fun A B k r =>
  match r with
  | Ok a => k a
  | Panic p => Panic p
  end.

(** ** Go slices *)

Module Slice.

(** [s[i]] panics when [i] is not below [len(s)]. *)
Definition index {A : Type} (s : list A) (i : nat) : Result A :=
  match nth_error s i with
  | Some a => Ok a
  | None => Panic IndexOutOfRange
  end.

(** [s[:n]] panics when [n] exceeds the capacity; the slices of this
    program come from [strings.Split], whose result has its capacity equal
    to its length. *)
Definition upto {A : Type} (s : list A) (n : nat) : Result (list A) :=
  if (n <=? length s)%nat then Ok (firstn n s) else Panic SliceBoundsOutOfRange.

(** [s[n:]] panics when [n] exceeds the length. *)
Definition from {A : Type} (s : list A) (n : nat) : Result (list A) :=
  if (n <=? length s)%nat then Ok (skipn n s) else Panic SliceBoundsOutOfRange.

End Slice.

(** ** Package [strings] *)

Module Strings.

(** [strings.HasPrefix(s, prefix)]. *)
Fixpoint HasPrefix (s prefix : string) : bool :=
  match prefix, s with
  | EmptyString, _ => true
  | String p prefix', String c s' => Ascii.eqb c p && HasPrefix s' prefix'
  | String _ _, EmptyString => false
  end.

(** [strings.Split(s, sep)] for a separator of one byte, which is how the
    program calls it ([sep = "/"]): the substrings between the separators,
    so one more element than there are separators. *)
Fixpoint Split (s : string) (sep : ascii) : list string :=
  match s with
  | EmptyString => [EmptyString]
  | String c s' =>
      if Ascii.eqb c sep then EmptyString :: Split s' sep
      else match Split s' sep with
           | x :: xs => String c x :: xs
           | [] => [String c EmptyString]
           end
  end.

(** [strings.Join(elems, sep)]. *)
Fixpoint Join (elems : list string) (sep : string) : string :=
  match elems with
  | [] => EmptyString
  | [x] => x
  | x :: xs => x +:+ sep +:+ Join xs sep
  end.

(** [strings.Cut(s, sep)] for a separator of one byte: the text before and
    after the first separator and whether there is one. *)
Fixpoint Cut (s : string) (sep : ascii) : string * string * bool :=
  match s with
  | EmptyString => (EmptyString, EmptyString, false)
  | String c s' =>
      if Ascii.eqb c sep then (EmptyString, s', true)
      else let '(before, after, found) := Cut s' sep in
           (String c before, after, found)
  end.

(** Whether the byte [c] occurs in [s] ([strings.IndexByte(s, c) >= 0]). *)
Fixpoint ContainsByte (s : string) (c : ascii) : bool :=
  match s with
  | EmptyString => false
  | String d s' => Ascii.eqb d c || ContainsByte s' c
  end.

End Strings.

Definition slash : ascii := "/"%char.

(** ** Package [path] *)

Module Path.

(** One path element read by [Clean], acting on the elements kept so far
    (the last one first).  An empty element and [.] are dropped; [..]
    removes the element before it; at the top of a rooted path [..] is
    dropped, at the top of a relative path it is kept. *)
Definition step (rooted : bool) (kept : list string) (elem : string) : list string :=
  if String.eqb elem "" then kept
  else if String.eqb elem "." then kept
  else if String.eqb elem ".." then
    match kept with
    | top :: below =>
        if rooted then below
        else if String.eqb top ".." then elem :: kept else below
    | [] => if rooted then [] else [elem]
    end
  else elem :: kept.

(** [path.Clean(path)]: the shortest path equivalent to [path], by the
    rules of its documentation, element by element. *)
Definition Clean (path : string) : string :=
  match path with
  | EmptyString => "."
  | String c _ =>
      let rooted := Ascii.eqb c slash in
      let kept := fold_left (step rooted) (Strings.Split path slash) [] in
      let out := (if rooted then "/" else "") +:+ Strings.Join (rev kept) "/" in
      if String.eqb out "" then "." else out
  end.

(** [path.Join(elem...)]: the non-empty elements joined by slashes and
    cleaned; the empty string when there is nothing to join. *)
Definition Join (elem : list string) : string :=
  match List.filter (fun e => negb (String.eqb e "")) elem with
  | [] => ""
  | nonempty => Clean (Strings.Join nonempty "/")
  end.

End Path.

(** ** Package [net/url] *)

(** The fields of [url.URL] that the program reads or writes. *)
Record URL : Type := mkURL {
  Scheme : string;
  Host : string;
  Path : string;
  RawQuery : string;
  Fragment : string
}.

(** A value returned together with a Go [error]. *)
Inductive OrError (A : Type) : Type :=
| Value (a : A)
| Error (err : string).

Arguments Value {A} a.
Arguments Error {A} err.

(** [url.Parse]: on an error the returned pointer is [nil]. *)
Class UrlLib : Type := {
  Parse : string -> OrError URL
}.

(** ** Package [golang.org/x/net/html]: the parse tree *)

Inductive NodeType : Type :=
| ErrorNode
| TextNode
| DocumentNode
| ElementNode
| CommentNode
| DoctypeNode.

#[global] Instance NodeType_eq_dec : EqDecision NodeType.
Proof. solve_decision. Defined.

Record Attribute : Type := mkAttribute {
  Namespace : string;
  Key : string;
  Val : string
}.

(** [html.Node]: its type, data, attributes and children in document
    order. *)
#[warnings="-register-all"]
Inductive Node : Type :=
| mkNode (Type_ : NodeType) (Data : string) (Attr : list Attribute) (Children : list Node).

Definition nodeType (n : Node) : NodeType := let 'mkNode t _ _ _ := n in t.
Definition nodeData (n : Node) : string := let 'mkNode _ d _ _ := n in d.
Definition nodeAttr (n : Node) : list Attribute := let 'mkNode _ _ a _ := n in a.
Definition nodeChildren (n : Node) : list Node := let 'mkNode _ _ _ c := n in c.

(** Running a fallible function over a slice, stopping at the first
    panic. *)
Definition mapM {A B : Type} (f : A -> Result B) : list A -> Result (list B) :=
  fix go (l : list A) : Result (list B) :=
    match l with
    | [] => Ok []
    | x :: xs =>
        match f x with
        | Ok y => match go xs with
                  | Ok ys => Ok (y :: ys)
                  | Panic p => Panic p
                  end
        | Panic p => Panic p
        end
    end.

(** [html.Parse] behind [goquery.NewDocumentFromReader] and [html.Render]
    behind [goquery.OuterHtml]. *)
Class HtmlLib : Type := {
  NewDocumentFromReader : string -> OrError Node;
  OuterHtml : Node -> OrError string
}.

(** ** Package [goquery]: attributes of a selected element *)

Module Goquery.

(** [s.AttrOr(name, def)]: the value of the first attribute with that key. *)
Fixpoint getAttributeValue (name : string) (attrs : list Attribute) : option string :=
  match attrs with
  | [] => None
  | a :: rest => if String.eqb (Key a) name then Some (Val a)
                 else getAttributeValue name rest
  end.

Definition AttrOr (n : Node) (name def : string) : string :=
  match getAttributeValue name (nodeAttr n) with
  | Some v => v
  | None => def
  end.

(** [s.SetAttr(name, val)]: the first attribute with that key gets the
    value; without one a new attribute is appended. *)
Fixpoint setAttributeValue (name val : string) (attrs : list Attribute) : list Attribute :=
  match attrs with
  | [] => [mkAttribute "" name val]
  | a :: rest =>
      if String.eqb (Key a) name then mkAttribute (Namespace a) (Key a) val :: rest
      else a :: setAttributeValue name val rest
  end.

Definition SetAttr (n : Node) (name val : string) : Node :=
  let 'mkNode t d attrs ch := n in
  mkNode t d (setAttributeValue name val attrs) ch.

(** Whether an element is matched by a selector that lists tag names
    ([a, link]). *)
Definition matches (tags : list string) (n : Node) : bool :=
  bool_decide (nodeType n = ElementNode)
  && existsb (String.eqb (nodeData n)) tags.

(** [f] on [n] when it matches, then on its descendants.  The callbacks of
    this program change the attributes of the matched element only. *)
Fixpoint eachFrom (tags : list string) (f : Node -> Result Node) (n : Node) : Result Node :=
  match (if matches tags n then f n else Ok n) with
  | Panic p => Panic p
  | Ok (mkNode t d attrs _) =>
      match mapM (eachFrom tags f) (nodeChildren n) with
      | Ok ch => Ok (mkNode t d attrs ch)
      | Panic p => Panic p
      end
  end.

(** [doc.Find(tags).Each(f)]: [f] on every matching descendant of the
    document node. *)
Definition FindEach (tags : list string) (f : Node -> Result Node) (doc : Node) : Result Node :=
  let 'mkNode t d attrs ch := doc in
  ch' ← mapM (eachFrom tags f) ch;
  Ok (mkNode t d attrs ch').

End Goquery.

(** ** Package [regexp] *)

(** [regexp.Compile] returns a [nil] pointer with its error; a compiled
    expression replaces all its matches in a text. *)
Class RegexpLib : Type := {
  Regexp : Type;
  Compile : string -> OrError Regexp;
  ReplaceAllString : Regexp -> string -> string -> string
}.

(** ** Packages [mime], [encoding/base64], [encoding/json], [html/template] *)

Class MimeLib : Type := {
  ParseMediaType : string -> OrError string;
  DetectContentType : string -> string
}.

(** Rule represents a single match replace rule. *)
Record Rule : Type := mkRule {
  Match : string;
  Replace : string
}.

Class CodecLib : Type := {
  DecodeString : string -> OrError string;
  EncodeToString : string -> string;
  Unmarshal : string -> OrError (list Rule);
  Marshal : list Rule -> string
}.

Class TemplateLib : Type := {
  ExecuteTemplate : string -> list Rule -> string
}.

(** ** Package [net/http] *)

(** [http.Header] and [url.Values]: a map from a key to its values. *)
Abbreviation Header := (gmap string (list string)).

Definition Get (h : Header) (key : string) : string :=
  match h !! key with
  | Some (v :: _) => v
  | _ => ""
  end.

Record Cookie : Type := mkCookie {
  Name : string;
  CookieValue : string;
  CookiePath : string;
  HttpOnly : bool
}.

(** [http.Request] as the handlers use it.  [Cookies] is the request's
    [Cookie] header as [r.Cookie] reads it, [Form] what [r.FormValue] parses
    from the query and the body. *)
Record Request : Type := mkRequest {
  Method : string;
  ReqURL : URL;
  ReqHost : string;
  RequestURI : string;
  ReqHeader : Header;
  Cookies : list Cookie;
  Form : Header;
  ReqBody : string
}.

(** [r.Cookie(name)]: the first cookie of that name, or [ErrNoCookie]. *)
Fixpoint lookupCookie (name : string) (cs : list Cookie) : option Cookie :=
  match cs with
  | [] => None
  | c :: rest => if String.eqb (Name c) name then Some c else lookupCookie name rest
  end.

Definition FormValue (r : Request) (key : string) : string := Get (Form r) key.

(** What a handler has written to its [http.ResponseWriter] when it
    returns: the status, the headers it assigned, the cookies it added with
    [http.SetCookie], and the body. *)
Record Response : Type := mkResponse {
  StatusCode : nat;
  RespHeader : Header;
  SetCookies : list Cookie;
  RespBody : string
}.

Definition newline : string := String (ascii_of_nat 10) EmptyString.

(** [http.Error(w, error, code)]: a plain-text reply, the message followed by
    a line feed. *)
Definition httpError (error : string) (code : nat) : Response :=
  {| StatusCode := code;
     RespHeader := <["X-Content-Type-Options" := ["nosniff"]]>
                   (<["Content-Type" := ["text/plain; charset=utf-8"]]> ∅);
     SetCookies := [];
     RespBody := error +:+ newline |}.

(** The upstream's answer to [http.DefaultClient.Do]: an error, or a
    response whose body [ioutil.ReadAll] reads or fails to read. *)
Record Upstream : Type := mkUpstream {
  UpStatusCode : nat;
  UpHeader : Header;
  UpBody : OrError string
}.

Class Network : Type := {
  Do : Request -> OrError Upstream
}.

(** ** The program *)

Section Program.

Context {urlLib : UrlLib} {htmlLib : HtmlLib} {regexpLib : RegexpLib}
        {mimeLib : MimeLib} {codecLib : CodecLib}
        {templateLib : TemplateLib} {network : Network}.

(** [getRules]: the rule list of the [rules] cookie; [nil] when the cookie
    is missing, is not base64 or is not the JSON of a rule list. *)
Definition getRules (r : Request) : list Rule :=
  match lookupCookie "rules" (Cookies r) with
  | None => []
  | Some rulesCookie =>
      match DecodeString (CookieValue rulesCookie) with
      | Error _ => []
      | Value cookieBody =>
          match Unmarshal cookieBody with
          | Error _ => []
          | Value rules => rules
          end
      end
  end.

(** The proxy path that [rewriteAttr] prints for a parsed link:
    [/view/<scheme>/<host><path>], then [?query] and [#fragment] when they
    are not empty. *)
Definition proxyPath (parsed : URL) : string :=
  let href := "/view/" +:+ Scheme parsed +:+ "/" +:+ Host parsed +:+ Path parsed in
  let href := if (0 <? String.length (RawQuery parsed))%nat
              then href +:+ "?" +:+ RawQuery parsed else href in
  if (0 <? String.length (Fragment parsed))%nat
  then href +:+ "#" +:+ Fragment parsed else href.

(** The new value that [rewriteAttr] computes for an attribute value.
    [url.Parse]'s result is read ([parsed.Scheme]) before its error is
    looked at, so a link that does not parse is a read through [nil]. *)
Definition rewriteHref (href urlPrefix : string) : Result string :=
  if Strings.HasPrefix href "http://" || Strings.HasPrefix href "https://"
     || Strings.HasPrefix href "//"
  then
    match Parse href with
    | Error _ => Panic NilPointerDereference
    | Value parsed =>
        let parsed := if (String.length (Scheme parsed) =? 0)%nat
                      then mkURL "https" (Host parsed) (Path parsed)
                                 (RawQuery parsed) (Fragment parsed)
                      else parsed in
        Ok (proxyPath parsed)
    end
  else if Strings.HasPrefix href "/" then Ok (Path.Join [urlPrefix; href])
  else Ok href.

(** [rewriteAttr(s, attr, urlPrefix)]. *)
Definition rewriteAttr (attr urlPrefix : string) (s : Node) : Result Node :=
  href ← rewriteHref (Goquery.AttrOr s attr "") urlPrefix;
  if (0 <? String.length href)%nat then Ok (Goquery.SetAttr s attr href)
  else Ok s.

(** Walk calls f once for the node and each of it's descendants.  [f] is
    given the node's type and data and returns the new data, which is all
    that the visitor of this program assigns. *)
Fixpoint Walk (f : NodeType -> string -> Result string) (n : Node) : Result Node :=
  let 'mkNode t d attrs ch := n in
  match f t d with
  | Panic p => Panic p
  | Ok d' =>
      match mapM (Walk f) ch with
      | Ok ch' => Ok (mkNode t d' attrs ch')
      | Panic p => Panic p
      end
  end.

(** The loop of the [/view/] handler that compiles the rules: the error of
    a rule that does not compile is logged and the [nil] expression is
    appended all the same. *)
Definition compileRules (rules : list Rule) : list (option Regexp) :=
  map (fun rule => match Compile (Match rule) with
                   | Value re => Some re
                   | Error _ => None
                   end) rules.

(** [r.ReplaceAllString(src, repl)] through a pointer that may be [nil]. *)
Definition replaceAllString (r : option Regexp) (src repl : string) : Result string :=
  match r with
  | Some re => Ok (ReplaceAllString re src repl)
  | None => Panic NilPointerDereference
  end.

(** [for i, r := range regexps { data = r.ReplaceAllString(data, rules[i].Replace) }],
    from index [i] on. *)
Fixpoint applyRegexps (regexps : list (option Regexp)) (rules : list Rule)
         (i : nat) (data : string) : Result string :=
  match regexps with
  | [] => Ok data
  | r :: rest =>
      rule ← Slice.index rules i;
      data' ← replaceAllString r data (Replace rule);
      applyRegexps rest rules (S i) data'
  end.

(** The visitor that the handler passes to [Walk]. *)
Definition rewriteText (regexps : list (option Regexp)) (rules : list Rule)
           (t : NodeType) (data : string) : Result string :=
  if bool_decide (t = TextNode) then applyRegexps regexps rules 0 data
  else Ok data.

(** The body of [if contentType == "text/html"]: the new body, or the
    error that ends the request with a 500. *)
Definition rewriteHTML (r : Request) (urlPrefix buf : string) : Result (OrError string) :=
  let rules := getRules r in
  let regexps := compileRules rules in
  match NewDocumentFromReader buf with
  | Error err => Ok (Error err)
  | Value doc =>
      doc ← Goquery.FindEach ["a"; "link"] (rewriteAttr "href" urlPrefix) doc;
      doc ← Goquery.FindEach ["img"; "script"] (rewriteAttr "src" urlPrefix) doc;
      doc ← Goquery.FindEach ["form"] (rewriteAttr "action" urlPrefix) doc;
      doc ← Walk (rewriteText regexps rules) doc;
      Ok (OuterHtml doc)
  end.

(** The first lines of the [/view/] handler: the prefix of the links of
    the page and the target, from the request's path and query. *)
Definition decodeTarget (path rawQuery : string) : Result (string * URL) :=
  let parts := Strings.Split path slash in
  prefixParts ← Slice.upto parts 4;
  let urlPrefix := Strings.Join prefixParts "/" +:+ "/" in
  scheme ← Slice.index parts 2;
  host ← Slice.index parts 3;
  rest ← Slice.from parts 4;
  Ok (urlPrefix, mkURL scheme host ("/" +:+ Strings.Join rest "/") rawQuery "").

(** The request sent upstream: the inbound one with its URL and host
    replaced and without [Accept-Encoding]. *)
Definition outbound (r : Request) (newURL : URL) : Request :=
  {| Method := Method r;
     ReqURL := newURL;
     ReqHost := Host newURL;
     RequestURI := "";
     ReqHeader := delete "Accept-Encoding" (<["Host" := [Host newURL]]> (ReqHeader r));
     Cookies := Cookies r;
     Form := Form r;
     ReqBody := ReqBody r |}.

(** The media type that decides whether the body is rewritten. *)
Definition classify (resp : Upstream) (buf : string) : string :=
  match ParseMediaType (Get (UpHeader resp) "Content-Type") with
  | Value contentType => contentType
  | Error _ => DetectContentType buf
  end.

(** The end of the [/view/] handler: every upstream header but
    [Content-Security-Policy], the upstream status, the body. *)
Definition relay (resp : Upstream) (buf : string) : Response :=
  {| StatusCode := UpStatusCode resp;
     RespHeader := delete "Content-Security-Policy" (UpHeader resp);
     SetCookies := [];
     RespBody := buf |}.

(** The handler of [/view/].  A panic ends the request without a
    response. *)
Definition viewHandler (r : Request) : Result Response :=
  '(urlPrefix, newURL) ← decodeTarget (Path (ReqURL r)) (RawQuery (ReqURL r));
  let r := outbound r newURL in
  match Do r with
  | Error err => Ok (httpError err 500)
  | Value resp =>
      match UpBody resp with
      | Error err => Ok (httpError err 500)
      | Value buf =>
          if String.eqb (classify resp buf) "text/html" then
            rewritten ← rewriteHTML r urlPrefix buf;
            match rewritten with
            | Error err => Ok (httpError err 500)
            | Value body => Ok (relay resp body)
            end
          else Ok (relay resp buf)
      end
  end.

(** The handler of [/]. *)
Definition indexHandler (r : Request) : Response :=
  let rules := getRules r in
  if String.eqb (Method r) "POST" then
    let match_ := FormValue r "match" in
    let replace := FormValue r "replace" in
    match Compile match_ with
    | Error err => httpError err 400
    | Value _ =>
        let rules := rules ++ [mkRule match_ replace] in
        let cookieBody := Marshal rules in
        {| StatusCode := 200;
           RespHeader := ∅;
           SetCookies := [mkCookie "rules" (EncodeToString cookieBody) "/" true];
           RespBody := ExecuteTemplate "index.html" rules |}
    end
  else
    {| StatusCode := 200;
       RespHeader := ∅;
       SetCookies := [];
       RespBody := ExecuteTemplate "index.html" rules |}.

End Program.

(** ** Between the page and the proxy: following a rewritten link *)

Module Client.

(** A client does not send the fragment of a link. *)
Definition stripFragment (href : string) : string :=
  let '(target, _, _) := Strings.Cut href "#"%char in target.

Definition ishex (c : ascii) : bool :=
  let n := nat_of_ascii c in
  ((48 <=? n) && (n <=? 57) || (97 <=? n) && (n <=? 102)
   || (65 <=? n) && (n <=? 70))%nat.

Definition unhex (c : ascii) : nat :=
  let n := nat_of_ascii c in
  (if (48 <=? n) && (n <=? 57) then n - 48
   else if (97 <=? n) && (n <=? 102) then n - 97 + 10
   else n - 65 + 10)%nat.

(** [net/url]'s [unescape] of a path: each [%XX] becomes its byte. *)
Fixpoint unescape (s : string) : OrError string :=
  match s with
  | EmptyString => Value EmptyString
  | String c rest =>
      if Ascii.eqb c "%"%char then
        match rest with
        | String a (String b rest') =>
            if ishex a && ishex b then
              match unescape rest' with
              | Value t => Value (String (ascii_of_nat (unhex a * 16 + unhex b)) t)
              | Error e => Error e
              end
            else Error "invalid URL escape"
        | _ => Error "invalid URL escape"
        end
      else
        match unescape rest with
        | Value t => Value (String c t)
        | Error e => Error e
        end
  end.

(** [url.ParseRequestURI] on an origin-form request target, as the server
    fills [r.URL]: the query is what follows the first [?], the path is
    unescaped. *)
Definition ParseRequestURI (target : string) : OrError (string * string) :=
  let '(rest, rawQuery, _) := Strings.Cut target "?"%char in
  match unescape rest with
  | Value path => Value (path, rawQuery)
  | Error e => Error e
  end.

(** The cookies that a client sends after a response: those that the
    response sets, then the ones it already had under other names. *)
Definition storeCookies (jar set : list Cookie) : list Cookie :=
  set ++ List.filter (fun c => negb (existsb (fun s => String.eqb (Name s) (Name c)) set)) jar.

End Client.

(** ** [http.ServeMux]: which handler gets a request *)

Module Mux.

(** Whether the last byte of [p] is [c]. *)
Fixpoint lastIs (p : string) (c : ascii) : bool :=
  match p with
  | EmptyString => false
  | String d p' =>
      match p' with
      | EmptyString => Ascii.eqb d c
      | String _ _ => lastIs p' c
      end
  end.

(** [cleanPath(p)]: the canonical path for [p], which is [path.Clean] of
    the rooted path with the trailing slash put back. *)
Definition cleanPath (p : string) : string :=
  match p with
  | EmptyString => "/"
  | String c _ =>
      let p := if Ascii.eqb c slash then p else "/" +:+ p in
      let np := Path.Clean p in
      if lastIs p slash && negb (String.eqb np "/") then
        if (String.length p =? String.length np + 1)%nat && Strings.HasPrefix p np
        then p
        else np +:+ "/"
      else np
  end.

Inductive Route : Type :=
| Redirect (location : string)
| ViewHandler
| IndexHandler.

(** [mux.Handler(r)] for the patterns that [main] registers, [/view/] and
    [/]: [/view] is redirected to [/view/], a path that is not canonical is
    redirected to its canonical path, and the longest pattern that is a
    prefix of the path wins. *)
Definition route (path : string) : Route :=
  let cleaned := cleanPath path in
  if String.eqb cleaned "/view" then Redirect "/view/"
  else if negb (String.eqb cleaned path) then Redirect cleaned
  else if Strings.HasPrefix path "/view/" then ViewHandler
  else IndexHandler.

(** The path with which a request for [path] reaches the [/view/] handler,
    when the client follows at most [redirects] redirects; [None] when the
    request ends elsewhere.  A redirect keeps the query. *)
Fixpoint served (redirects : nat) (path : string) : option string :=
  match route path with
  | ViewHandler => Some path
  | IndexHandler => None
  | Redirect location =>
      match redirects with
      | O => None
      | S redirects => served redirects location
      end
  end.

End Mux.

(** The target that the [/view/] handler computes when a client follows
    the link [href] of a rewritten page: the client sends the link without
    its fragment, the server parses the request target, the mux redirects
    the client to the canonical path and hands the request to the handler.
    [None] when the server refuses the request, the request does not reach
    the [/view/] handler, or the handler panics. *)
Definition followLink (href : string) : option URL :=
  match Client.ParseRequestURI (Client.stripFragment href) with
  | Error _ => None
  | Value (path, rawQuery) =>
      match Mux.served 10 path with
      | None => None
      | Some path =>
          match decodeTarget path rawQuery with
          | Ok (_, target) => Some target
          | Panic _ => None
          end
      end
  end.

(** ** Small libraries to run the program on examples

    The properties below hold for every library behind the interfaces
    above.  This module gives one instance of each, small enough to compute
    with: links of the common shape, well-nested markup, regular
    expressions without metacharacters, base64, and the JSON of a rule
    list. *)

Module Demo.

Definition dq : ascii := ascii_of_nat 34.
Definition quote : string := String dq EmptyString.

Fixpoint dropBytes (n : nat) (s : string) : string :=
  match n, s with
  | S k, String _ s' => dropBytes k s'
  | _, _ => s
  end.

(** *** Links: [scheme://host/path?query#fragment] *)

Fixpoint digits (s : string) : bool :=
  match s with
  | EmptyString => true
  | String c s' =>
      let n := nat_of_ascii c in
      ((48 <=? n) && (n <=? 57))%nat && digits s'
  end.

Definition parseURL (rawURL : string) : OrError URL :=
  let '(u, frag, _) := Strings.Cut rawURL "#"%char in
  let '(scheme, rest) :=
    if Strings.HasPrefix u "//" then ("", u)
    else let '(before, after, found) := Strings.Cut u ":"%char in
         if found then (before, after) else ("", u) in
  let '(rest, query, _) := Strings.Cut rest "?"%char in
  if Strings.HasPrefix rest "//" then
    let '(authority, path, found) := Strings.Cut (dropBytes 2 rest) slash in
    let '(_, port, _) := Strings.Cut authority ":"%char in
    if Strings.ContainsByte authority " "%char
    then Error "invalid character in host name"
    else if negb (digits port) then Error "invalid port after host"
    else Value (mkURL scheme authority (if found then "/" +:+ path else "") query frag)
  else Value (mkURL scheme "" rest query frag).

#[export] Instance url : UrlLib := {| Parse := parseURL |}.

(** *** Markup *)

Inductive Token : Type :=
| TText (data : string)
| TOpen (tag : string) (attrs : list Attribute)
| TClose (tag : string).

Definition unquote (s : string) : string :=
  if Strings.HasPrefix s quote
  then let '(v, _, _) := Strings.Cut (dropBytes 1 s) dq in v
  else s.

Definition parseAttr (s : string) : Attribute :=
  let '(key, val, _) := Strings.Cut s "="%char in
  mkAttribute "" key (unquote val).

Definition parseTag (inside : string) : Token :=
  match Strings.Split inside " "%char with
  | name :: attrs =>
      TOpen name (map parseAttr (List.filter (fun a => negb (String.eqb a "")) attrs))
  | [] => TOpen inside []
  end.

Fixpoint tokens (fuel : nat) (s : string) : list Token :=
  match fuel with
  | O => []
  | S fuel =>
      if String.eqb s "" then []
      else if Strings.HasPrefix s "</" then
        let '(name, rest, _) := Strings.Cut (dropBytes 2 s) ">"%char in
        TClose name :: tokens fuel rest
      else if Strings.HasPrefix s "<" then
        let '(inside, rest, _) := Strings.Cut (dropBytes 1 s) ">"%char in
        parseTag inside :: tokens fuel rest
      else
        let '(text, rest, found) := Strings.Cut s "<"%char in
        TText text :: tokens fuel (if found then "<" +:+ rest else "")
  end.

Definition void (tag : string) : bool :=
  existsb (String.eqb tag) ["img"; "link"; "br"; "hr"; "meta"; "input"].

(** The open elements, innermost first, each with the children read before
    it; [cur] holds the children of the innermost one, last first. *)
Fixpoint build (toks : list Token) (open : list (string * list Attribute * list Node))
         (cur : list Node) : list Node :=
  match toks with
  | [] =>
      rev (fold_left (fun inner '(tag, attrs, before) =>
                        mkNode ElementNode tag attrs (rev inner) :: before) open cur)
  | TText data :: rest => build rest open (mkNode TextNode data [] [] :: cur)
  | TOpen tag attrs :: rest =>
      if void tag then build rest open (mkNode ElementNode tag attrs [] :: cur)
      else build rest ((tag, attrs, cur) :: open) []
  | TClose _ :: rest =>
      match open with
      | (tag, attrs, before) :: outer =>
          build rest outer (mkNode ElementNode tag attrs (rev cur) :: before)
      | [] => build rest [] cur
      end
  end.

(** The document of a page fragment: its nodes in the body of an [html]
    element, as the parser completes a page. *)
Definition parseHTML (buf : string) : OrError Node :=
  let nodes := build (tokens (String.length buf) buf) [] [] in
  Value (mkNode DocumentNode "" []
           [mkNode ElementNode "html" []
              [mkNode ElementNode "head" [] [];
               mkNode ElementNode "body" [] nodes]]).

Fixpoint escape (s : string) : string :=
  match s with
  | EmptyString => EmptyString
  | String c s' =>
      (if Ascii.eqb c "&"%char then "&amp;"
       else if Ascii.eqb c "<"%char then "&lt;"
       else if Ascii.eqb c ">"%char then "&gt;"
       else if Ascii.eqb c dq then "&#34;"
       else String c EmptyString) +:+ escape s'
  end.

Definition renderAttr (a : Attribute) : string :=
  " " +:+ Key a +:+ "=" +:+ quote +:+ escape (Val a) +:+ quote.

Fixpoint render (n : Node) : string :=
  let 'mkNode t d attrs ch := n in
  let inner := fold_right (fun c out => render c +:+ out) "" ch in
  match t with
  | TextNode => escape d
  | ElementNode =>
      "<" +:+ d +:+ fold_right (fun a out => renderAttr a +:+ out) "" attrs +:+ ">"
      +:+ (if void d then "" else inner +:+ "</" +:+ d +:+ ">")
  | CommentNode => "<!--" +:+ d +:+ "-->"
  | DoctypeNode => "<!DOCTYPE " +:+ d +:+ ">"
  | DocumentNode => inner
  | ErrorNode => ""
  end.

#[export] Instance html : HtmlLib :=
  {| NewDocumentFromReader := parseHTML;
     OuterHtml := fun n => Value (render n) |}.

(** *** Regular expressions without metacharacters *)

Definition meta (c : ascii) : bool :=
  Strings.ContainsByte "\.+*?()|[]{}^$" c.

Fixpoint literal (s : string) : bool :=
  match s with
  | EmptyString => true
  | String c s' => negb (meta c) && literal s'
  end.

Definition compileLiteral (expr : string) : OrError string :=
  if literal expr then Value expr
  else Error ("error parsing regexp: " +:+ expr).

(** Every match of the literal [pat] from left to right, without overlap;
    the empty expression matches before every byte and at the end. *)
Fixpoint replaceFrom (pat repl : string) (skip : nat) (src : string) : string :=
  match src with
  | EmptyString => if String.eqb pat "" then repl else ""
  | String c src' =>
      match skip with
      | S k => replaceFrom pat repl k src'
      | O =>
          if String.eqb pat "" then repl +:+ String c (replaceFrom pat repl 0 src')
          else if Strings.HasPrefix src pat
          then repl +:+ replaceFrom pat repl (String.length pat - 1) src'
          else String c (replaceFrom pat repl 0 src')
      end
  end.

#[export] Instance regexp : RegexpLib :=
  {| Regexp := string;
     Compile := compileLiteral;
     ReplaceAllString := fun pat src repl => replaceFrom pat repl 0 src |}.


(** *** Media types *)

Fixpoint trimLeft (s : string) : string :=
  match s with
  | String c s' => if Ascii.eqb c " "%char then trimLeft s' else s
  | EmptyString => s
  end.

Definition lower (c : ascii) : ascii :=
  let n := nat_of_ascii c in
  if ((65 <=? n) && (n <=? 90))%nat then ascii_of_nat (n + 32) else c.

Fixpoint mediaType (s : string) : string :=
  match s with
  | EmptyString => EmptyString
  | String c s' => if Ascii.eqb c " "%char then EmptyString
                   else String (lower c) (mediaType s')
  end.

Definition parseMediaType (v : string) : OrError string :=
  let '(base, _, _) := Strings.Cut v ";"%char in
  let t := mediaType (trimLeft base) in
  if String.eqb t "" then Error "mime: no media type" else Value t.

Definition detectContentType (buf : string) : string :=
  if Strings.HasPrefix buf "<html" || Strings.HasPrefix buf "<!DOCTYPE HTML"
  then "text/html; charset=utf-8"
  else "text/plain; charset=utf-8".

#[export] Instance mime : MimeLib :=
  {| ParseMediaType := parseMediaType; DetectContentType := detectContentType |}.

(** *** base64 *)

Definition alphabet : string :=
  "ABCDEFGHIJKLMNOPQRSTUVWXYZabcdefghijklmnopqrstuvwxyz0123456789+/".

Definition digit (i : nat) : ascii :=
  match String.get i alphabet with
  | Some c => c
  | None => "="%char
  end.

Fixpoint indexIn (s : string) (c : ascii) : option nat :=
  match s with
  | EmptyString => None
  | String d s' => if Ascii.eqb d c then Some O
                   else match indexIn s' c with
                        | Some i => Some (S i)
                        | None => None
                        end
  end.

Fixpoint encode (src : string) : string :=
  match src with
  | EmptyString => EmptyString
  | String a EmptyString =>
      let a := nat_of_ascii a in
      String (digit (a / 4)) (String (digit (a mod 4 * 16)) "==")
  | String a (String b EmptyString) =>
      let a := nat_of_ascii a in
      let b := nat_of_ascii b in
      String (digit (a / 4)) (String (digit (a mod 4 * 16 + b / 16))
        (String (digit (b mod 16 * 4)) "="))
  | String a (String b (String c rest)) =>
      let a := nat_of_ascii a in
      let b := nat_of_ascii b in
      let c := nat_of_ascii c in
      String (digit (a / 4)) (String (digit (a mod 4 * 16 + b / 16))
        (String (digit (b mod 16 * 4 + c / 64)) (String (digit (c mod 64))
           (encode rest))))
  end.

Definition corrupt : OrError string := Error "illegal base64 data".

Fixpoint decode (s : string) : OrError string :=
  match s with
  | EmptyString => Value EmptyString
  | String a (String b (String c (String d rest))) =>
      match indexIn alphabet a, indexIn alphabet b with
      | Some a, Some b =>
          let x := ascii_of_nat (a * 4 + b / 16) in
          match indexIn alphabet c, indexIn alphabet d with
          | Some c, Some d =>
              match decode rest with
              | Value t =>
                  Value (String x (String (ascii_of_nat (b mod 16 * 16 + c / 4))
                           (String (ascii_of_nat (c mod 4 * 64 + d)) t)))
              | Error e => Error e
              end
          | Some c, None =>
              if Ascii.eqb d "="%char && String.eqb rest ""
              then Value (String x (String (ascii_of_nat (b mod 16 * 16 + c / 4)) ""))
              else corrupt
          | None, _ =>
              if Ascii.eqb c "="%char && Ascii.eqb d "="%char && String.eqb rest ""
              then Value (String x "")
              else corrupt
          end
      | _, _ => corrupt
      end
  | _ => corrupt
  end.

(** *** The JSON of a rule list *)

Definition backslash : ascii := ascii_of_nat 92.

Fixpoint jsonEscape (s : string) : string :=
  match s with
  | EmptyString => EmptyString
  | String c s' =>
      if Ascii.eqb c dq || Ascii.eqb c backslash
      then String backslash (String c (jsonEscape s'))
      else String c (jsonEscape s')
  end.

Definition jsonString (s : string) : string := quote +:+ jsonEscape s +:+ quote.

Definition jsonRule (r : Rule) : string :=
  "{" +:+ jsonString "Match" +:+ ":" +:+ jsonString (Match r) +:+ ","
  +:+ jsonString "Replace" +:+ ":" +:+ jsonString (Replace r) +:+ "}".

Definition marshal (rules : list Rule) : string :=
  match rules with
  | [] => "null"
  | _ => "[" +:+ Strings.Join (map jsonRule rules) "," +:+ "]"
  end.

(** The JSON string at the start of [s], after its opening quote, and
    what follows its closing quote. *)
Fixpoint readString (s : string) : option (string * string) :=
  match s with
  | EmptyString => None
  | String c s' =>
      if Ascii.eqb c dq then Some (EmptyString, s')
      else if Ascii.eqb c backslash then
        match s' with
        | String e s'' =>
            match readString s'' with
            | Some (v, rest) => Some (String e v, rest)
            | None => None
            end
        | EmptyString => None
        end
      else
        match readString s' with
        | Some (v, rest) => Some (String c v, rest)
        | None => None
        end
  end.

(** [s] without the prefix [p]. *)
Definition expect (p s : string) : option string :=
  if Strings.HasPrefix s p then Some (dropBytes (String.length p) s) else None.

Definition readRule (s : string) : option (Rule * string) :=
  s ← expect ("{" +:+ jsonString "Match" +:+ ":" +:+ quote) s;
  '(m, s) ← readString s;
  s ← expect ("," +:+ jsonString "Replace" +:+ ":" +:+ quote) s;
  '(r, s) ← readString s;
  s ← expect "}" s;
  Some (mkRule m r, s).

Fixpoint readRules (fuel : nat) (s : string) : option (list Rule) :=
  match fuel with
  | O => None
  | S fuel =>
      '(r, s) ← readRule s;
      if String.eqb s "]" then Some [r]
      else s ← expect "," s; rs ← readRules fuel s; Some (r :: rs)
  end.

Definition unmarshal (data : string) : OrError (list Rule) :=
  if String.eqb data "null" || String.eqb data "[]" then Value []
  else match expect "[" data ≫= readRules (String.length data) with
       | Some rules => Value rules
       | None => Error "json: cannot unmarshal into Go value of type []main.Rule"
       end.

#[export] Instance codec : CodecLib :=
  {| DecodeString := decode; EncodeToString := encode;
     Unmarshal := unmarshal; Marshal := marshal |}.

(** *** The control page and the upstream *)

Definition page (rules : list Rule) : string :=
  fold_right (fun r out => Match r +:+ " -> " +:+ Replace r +:+ newline +:+ out)
             "" rules.

#[export] Instance template : TemplateLib :=
  {| ExecuteTemplate := fun _ rules => page rules |}.

(** An upstream that answers every request with [up]. *)
Definition serving (up : Upstream) : Network := {| Do := fun _ => Value up |}.

(** An upstream that cannot be reached. *)
Definition unreachable : Network := {| Do := fun _ => Error "dial tcp: connection refused" |}.

(** *** The program on these libraries *)

Definition view (net : Network) (r : Request) : Result Response :=
  viewHandler (urlLib := url) (htmlLib := html) (regexpLib := regexp)
              (mimeLib := mime) (codecLib := codec) (network := net) r.

Definition index (r : Request) : Response :=
  indexHandler (regexpLib := regexp) (codecLib := codec) (templateLib := template) r.

Definition rulesOf (r : Request) : list Rule := getRules (codecLib := codec) r.

Definition href (value urlPrefix : string) : Result string :=
  rewriteHref (urlLib := url) value urlPrefix.

(** A request for [path] with the cookies [cookies]. *)
Definition get (path : string) (cookies : list Cookie) : Request :=
  {| Method := "GET"; ReqURL := mkURL "" "" path "" ""; ReqHost := "localhost:8080";
     RequestURI := path; ReqHeader := ∅; Cookies := cookies; Form := ∅;
     ReqBody := "" |}.

(** The submission of a rule on the control page. *)
Definition post (match_ replace : string) (cookies : list Cookie) : Request :=
  {| Method := "POST"; ReqURL := mkURL "" "" "/" "" ""; ReqHost := "localhost:8080";
     RequestURI := "/"; ReqHeader := ∅; Cookies := cookies;
     Form := <["match" := [match_]]> (<["replace" := [replace]]> ∅);
     ReqBody := "" |}.

(** The cookie that the control page sets for a rule list. *)
Definition rulesCookie (rules : list Rule) : Cookie :=
  mkCookie "rules" (encode (marshal rules)) "/" true.

(** An upstream page of type [contentType]. *)
Definition page200 (contentType body : string) : Upstream :=
  {| UpStatusCode := 200;
     UpHeader := <["Content-Type" := [contentType]]> ∅;
     UpBody := Value body |}.

(** An upstream page of two bytes that says so. *)
Definition twoBytes : Upstream :=
  {| UpStatusCode := 200;
     UpHeader := <["Content-Length" := ["2"]]> (<["Content-Type" := ["text/html"]]> ∅);
     UpBody := Value "hi" |}.

(** A parser whose reader fails. *)
Definition failingReader : HtmlLib :=
  {| NewDocumentFromReader := fun _ => Error "unexpected EOF";
     OuterHtml := fun n => Value (render n) |}.

(** An upstream page that restricts what it may load. *)
Definition guarded : Upstream :=
  {| UpStatusCode := 404;
     UpHeader := <["Content-Security-Policy" := ["default-src 'self'"]]>
                 (<["Content-Type" := ["text/plain"]]>
                  (<["X-Frame-Options" := ["DENY"]]> ∅));
     UpBody := Value "not here" |}.

(** An upstream whose body breaks off. *)
Definition truncated : Upstream :=
  {| UpStatusCode := 200;
     UpHeader := <["Content-Type" := ["text/html"]]> ∅;
     UpBody := Error "unexpected EOF" |}.

End Demo.

(** ** Predicates of the statements *)

(** [s] contains none of the bytes of [bytes]. *)
Fixpoint avoids (s bytes : string) : bool :=
  match bytes with
  | EmptyString => true
  | String c bytes' => negb (Strings.ContainsByte s c) && avoids s bytes'
  end.

(** [u] without its fragment. *)
Definition withoutFragment (u : URL) : URL :=
  mkURL (Scheme u) (Host u) (Path u) (RawQuery u) "".

(** A scheme or a host as one element of a proxy path: not empty, not a dot
    element, without a slash. *)
Definition element (s : string) : bool :=
  negb (String.eqb s "") && negb (String.eqb s ".") && negb (String.eqb s "..")
  && negb (Strings.ContainsByte s slash).

(** Whether the [..] elements of [elems], read from [depth] elements below
    the start, never climb above the start. *)
Fixpoint within (elems : list string) (depth : nat) : bool :=
  match elems with
  | [] => true
  | e :: rest =>
      if String.eqb e "" || String.eqb e "." then within rest depth
      else if String.eqb e ".." then
        match depth with
        | O => false
        | S d => within rest d
        end
      else within rest (S depth)
  end.

(** A rooted link whose [..] elements stay below its own root. *)
Definition contained (href : string) : bool :=
  within (Strings.Split href slash) 0.

(** Whether a tree has a text node. *)
Fixpoint hasText (n : Node) : bool :=
  let 'mkNode t _ _ ch := n in
  bool_decide (t = TextNode) || existsb hasText ch.

(** What the specification asks of the text rewriting: every compiled rule
    in the order of the list, each on the text that the one before it left. *)
Definition applyInOrder `{RegexpLib} (compiled : list (Regexp * string)) (text : string) : string :=
  fold_left (fun current '(re, repl) => ReplaceAllString re current repl) compiled text.

(** The links that [rewriteAttr] hands to [url.Parse]. *)
Definition absolute (href : string) : bool :=
  Strings.HasPrefix href "http://" || Strings.HasPrefix href "https://"
  || Strings.HasPrefix href "//".

(** A rule whose expression does not compile. *)
Definition broken `{RegexpLib} (rule : Rule) : Prop :=
  exists err, Compile (Match rule) = Error err.

(** The expressions of rules that all compile, with their replacements. *)
Fixpoint compiledRules `{RegexpLib} (rules : list Rule) : option (list (Regexp * string)) :=
  match rules with
  | [] => Some []
  | rule :: rest =>
      match Compile (Match rule), compiledRules rest with
      | Value re, Some cs => Some ((re, Replace rule) :: cs)
      | _, _ => None
      end
  end.

(** The request [r] with the cookies [cookies]. *)
Definition withCookies (r : Request) (cookies : list Cookie) : Request :=
  {| Method := Method r; ReqURL := ReqURL r; ReqHost := ReqHost r;
     RequestURI := RequestURI r; ReqHeader := ReqHeader r; Cookies := cookies;
     Form := Form r; ReqBody := ReqBody r |}.

(** The [rules] cookie of the request cannot be read: it is missing, is not
    base64, or is not the JSON of a rule list. *)
Definition unreadable `{CodecLib} (r : Request) : Prop :=
  lookupCookie "rules" (Cookies r) = None
  \/ (exists c err, lookupCookie "rules" (Cookies r) = Some c
                    /\ DecodeString (CookieValue c) = Error err)
  \/ (exists c cookieBody err,
         lookupCookie "rules" (Cookies r) = Some c
         /\ DecodeString (CookieValue c) = Value cookieBody
         /\ Unmarshal cookieBody = Error err).

(** The tree [n] with [g] applied to the data of its text nodes. *)
Fixpoint mapText (g : string -> string) (n : Node) : Node :=
  let 'mkNode t d attrs ch := n in
  mkNode t (if bool_decide (t = TextNode) then g d else d) attrs (map (mapText g) ch).

(** The number of bytes [c] in [s] ([strings.Count] for one byte). *)
Fixpoint countByte (s : string) (c : ascii) : nat :=
  match s with
  | EmptyString => O
  | String d s' => (if Ascii.eqb d c then 1 else 0) + countByte s' c
  end.

(** [Walk] for a visitor that keeps a state of its own and reads the node:
    [f] on the node, then the walk of each child in document order. *)
Fixpoint WalkFold {S : Type} (f : Node -> S -> S) (n : Node) (s : S) : S :=
  fold_left (fun s child => WalkFold f child s) (nodeChildren n) (f n s).

(** A node and its descendants, each parent before its children and the
    children in document order. *)
Fixpoint preorder (n : Node) : list Node :=
  n :: flat_map preorder (nodeChildren n).

(** The attributes other than [attr]. *)
Definition otherAttrs (attr : string) (attrs : list Attribute) : list Attribute :=
  List.filter (fun a => negb (String.eqb (Key a) attr)) attrs.

(** The tree [n] without the attribute [attr] of the elements that the
    selector [tags] matches. *)
Fixpoint besides (tags : list string) (attr : string) (n : Node) : Node :=
  let 'mkNode t d attrs ch := n in
  mkNode t d (if Goquery.matches tags n then otherAttrs attr attrs else attrs)
         (map (besides tags attr) ch).

(** The same for a document, whose root is not among the elements that
    [Find] selects. *)
Definition besidesIn (tags : list string) (attr : string) (doc : Node) : Node :=
  let 'mkNode t d attrs ch := doc in
  mkNode t d attrs (map (besides tags attr) ch).

(** The descendants of a document, in document order. *)
Definition descendants (doc : Node) : list Node :=
  flat_map preorder (nodeChildren doc).

(** The attribute [attr] of [n], when [n] is selected by [tags] and the
    value is one that [rewriteAttr] hands to [url.Parse], parses. *)
Definition linkParses `{UrlLib} (tags : list string) (attr : string) (n : Node) : Prop :=
  Goquery.matches tags n = true ->
  absolute (Goquery.AttrOr n attr "") = true ->
  exists parsed, Parse (Goquery.AttrOr n attr "") = Value parsed.

(** Every link of the document that the handler rewrites parses. *)
Definition linksParse `{UrlLib} (doc : Node) : Prop :=
  Forall (linkParses ["a"; "link"] "href") (descendants doc)
  /\ Forall (linkParses ["img"; "script"] "src") (descendants doc)
  /\ Forall (linkParses ["form"] "action") (descendants doc).

(** What a later pass reads of a node: whether it is selected, and the
    value of its attribute. *)
Definition sameLink (other : string) (m' m : Node) : Prop :=
  nodeType m' = nodeType m /\ nodeData m' = nodeData m
  /\ Goquery.getAttributeValue other (nodeAttr m')
     = Goquery.getAttributeValue other (nodeAttr m).

(** The elements that [path.Clean] keeps of a rooted link. *)
Definition keptOf (rest : string) : list string :=
  rev (fold_left (Path.step true) (Strings.Split rest slash) []).

(** The three passes of the [/view/] handler over the links of a document:
    [href] of [a] and [link], [src] of [img] and [script], [action] of
    [form]. *)
Definition rewriteLinks `{UrlLib} (urlPrefix : string) (doc : Node) : Result Node :=
  doc ← Goquery.FindEach ["a"; "link"] (rewriteAttr "href" urlPrefix) doc;
  doc ← Goquery.FindEach ["img"; "script"] (rewriteAttr "src" urlPrefix) doc;
  Goquery.FindEach ["form"] (rewriteAttr "action" urlPrefix) doc.

(** [strings.Contains(s, substr)]. *)
Fixpoint contains (s substr : string) : bool :=
  Strings.HasPrefix s substr
  || match s with
     | EmptyString => false
     | String _ s' => contains s' substr
     end.

(** The bytes that a client sends in a request target as they are: letters,
    digits and [- . _ ~ ! $ & ( ) * + , ; = : @ /]. *)
Definition safeByte (c : ascii) : bool :=
  let n := nat_of_ascii c in
  ((48 <=? n) && (n <=? 57) || (65 <=? n) && (n <=? 90)
   || (97 <=? n) && (n <=? 122))%nat
  || Strings.ContainsByte "-._~!$&()*+,;=:@/" c.

(** A text of such bytes. *)
Fixpoint sentAsIs (s : string) : bool :=
  match s with
  | EmptyString => true
  | String c s' => safeByte c && sentAsIs s'
  end.

(** A query of such bytes and question marks. *)
Fixpoint querySentAsIs (s : string) : bool :=
  match s with
  | EmptyString => true
  | String c s' => (safeByte c || Ascii.eqb c "?"%char) && querySentAsIs s'
  end.

(** * Properties *)

(** ** Strings *)

Module StringsFacts.

Import Strings.

Lemma app_cons c s t : String c s +:+ t = String c (s +:+ t).
Proof. reflexivity. Qed.

Lemma app_empty_l t : "" +:+ t = t.
Proof. reflexivity. Qed.

Lemma app_empty_r s : s +:+ "" = s.
Proof. induction s as [|c s IH]; [reflexivity|]. rewrite app_cons. by f_equal. Qed.

Lemma app_assoc s t u : (s +:+ t) +:+ u = s +:+ t +:+ u.
Proof. induction s as [|c s IH]; [reflexivity|]. rewrite !app_cons. by f_equal. Qed.

Lemma HasPrefix_app p s : HasPrefix (p +:+ s) p = true.
Proof.
  induction p as [|c p IH]; [by destruct s|].
  rewrite app_cons. simpl. by rewrite Ascii.eqb_refl.
Qed.

Lemma HasPrefix_inv s p : HasPrefix s p = true -> exists t, s = p +:+ t.
Proof.
  revert s. induction p as [|c p IH]; intros s Hs.
  - by exists s.
  - destruct s as [|d s]; [discriminate|]. simpl in Hs.
    apply andb_prop in Hs as [Hd Hp]. apply Ascii.eqb_eq in Hd as ->.
    destruct (IH _ Hp) as [t ->]. by exists t.
Qed.

Lemma HasPrefix_app_l p q s : HasPrefix (p +:+ s) (p +:+ q) = HasPrefix s q.
Proof.
  induction p as [|c p IH]; [reflexivity|].
  rewrite !app_cons. simpl. by rewrite Ascii.eqb_refl.
Qed.

Lemma ContainsByte_app s t c :
  ContainsByte (s +:+ t) c = ContainsByte s c || ContainsByte t c.
Proof.
  induction s as [|d s IH]; [reflexivity|].
  rewrite app_cons. simpl. by rewrite IH, orb_assoc.
Qed.

Lemma Split_not_nil s c : Split s c <> [].
Proof.
  induction s as [|d s IH]; simpl; [done|].
  destruct (Ascii.eqb d c); [done|]. by destruct (Split s c).
Qed.

Lemma Split_length s c : (1 <= length (Split s c))%nat.
Proof.
  pose proof (Split_not_nil s c). destruct (Split s c); [done|]. simpl. lia.
Qed.

(** Splitting after an element without a separator. *)
Lemma Split_app a b c :
  ContainsByte a c = false ->
  Split (a +:+ String c b) c = a :: Split b c.
Proof.
  induction a as [|d a IH]; intros Ha.
  - rewrite app_empty_l. simpl. by rewrite Ascii.eqb_refl.
  - simpl in Ha. apply orb_false_elim in Ha as [Hd Ha].
    rewrite app_cons. simpl. rewrite Hd, (IH Ha). done.
Qed.

(** Joining what was split gives the text back. *)
Lemma Join_Split s c : Join (Split s c) (String c "") = s.
Proof.
  induction s as [|d s IH]; [reflexivity|]. simpl.
  destruct (Ascii.eqb_spec d c) as [->|Hne].
  - pose proof (Split_not_nil s c) as Hnil.
    simpl. destruct (Split s c) as [|x xs]; [done|].
    rewrite IH. reflexivity.
  - pose proof (Split_not_nil s c) as Hnil.
    destruct (Split s c) as [|x xs]; [done|].
    destruct xs as [|y ys].
    + simpl in *. by rewrite IH.
    + change (Join (String d x :: y :: ys) (String c ""))
        with (String d (Join (x :: y :: ys) (String c ""))).
      by rewrite IH.
Qed.

Lemma Cut_app a b c :
  ContainsByte a c = false -> Cut (a +:+ String c b) c = (a, b, true).
Proof.
  induction a as [|d a IH]; intros Ha.
  - rewrite app_empty_l. simpl. by rewrite Ascii.eqb_refl.
  - simpl in Ha. apply orb_false_elim in Ha as [Hd Ha].
    rewrite app_cons. simpl. by rewrite Hd, (IH Ha).
Qed.

Lemma Cut_none a c :
  ContainsByte a c = false -> Cut a c = (a, "", false).
Proof.
  induction a as [|d a IH]; intros Ha; [reflexivity|].
  simpl in Ha. apply orb_false_elim in Ha as [Hd Ha].
  simpl. by rewrite Hd, (IH Ha).
Qed.

Lemma unescape_plain s :
  ContainsByte s "%"%char = false -> Client.unescape s = Value s.
Proof.
  induction s as [|d s IH]; intros Hs; [reflexivity|].
  simpl in Hs. apply orb_false_elim in Hs as [Hd Hs].
  simpl. by rewrite Hd, (IH Hs).
Qed.

End StringsFacts.

(** ** [path.Clean] on the table of its package's tests *)

Lemma Clean_table :
  map Path.Clean
    [""; "abc"; "abc/def"; "a/b/c"; "."; ".."; "../.."; "../../abc"; "/abc"; "/";
     "abc/"; "abc/def/"; "a/b/c/"; "./"; "../"; "../../"; "/abc/";
     "abc//def//ghi"; "//abc"; "///abc"; "//abc//"; "abc//";
     "abc/./def"; "/./abc/def"; "abc/.";
     "abc/def/ghi/../jkl"; "abc/def/../ghi/../jkl"; "abc/def/.."; "abc/def/../..";
     "/abc/def/../.."; "abc/def/../../.."; "/abc/def/../../..";
     "abc/def/../../../ghi/jkl/../../../mno";
     "abc/./../def"; "abc//./../def"; "abc/../../././../def"]
  = ["."; "abc"; "abc/def"; "a/b/c"; "."; ".."; "../.."; "../../abc"; "/abc"; "/";
     "abc"; "abc/def"; "a/b/c"; "."; ".."; "../.."; "/abc";
     "abc/def/ghi"; "/abc"; "/abc"; "/abc"; "abc";
     "abc/def"; "/abc/def"; "abc";
     "abc/def/jkl"; "abc/jkl"; "abc"; ".";
     "/"; ".."; "/";
     "../../mno";
     "def"; "def"; "../../def"].
Proof. reflexivity. Qed.

(** ** The URL codec *)

Section Codec.

Import Strings StringsFacts.

Lemma stripFragment_plain x :
  ContainsByte x "#"%char = false -> Client.stripFragment x = x.
Proof. intros Hx. unfold Client.stripFragment. by rewrite Cut_none. Qed.

Lemma stripFragment_app x f :
  ContainsByte x "#"%char = false ->
  Client.stripFragment (x +:+ "#" +:+ f) = x.
Proof.
  intros Hx. unfold Client.stripFragment.
  change ("#" +:+ f) with (String "#"%char f). by rewrite Cut_app.
Qed.

Lemma ParseRequestURI_plain x :
  ContainsByte x "?"%char = false -> ContainsByte x "%"%char = false ->
  Client.ParseRequestURI x = Value (x, "").
Proof.
  intros Hq Hp. unfold Client.ParseRequestURI.
  by rewrite Cut_none, unescape_plain.
Qed.

Lemma ParseRequestURI_query x q :
  ContainsByte x "?"%char = false -> ContainsByte x "%"%char = false ->
  Client.ParseRequestURI (x +:+ "?" +:+ q) = Value (x, q).
Proof.
  intros Hq Hp. unfold Client.ParseRequestURI.
  change ("?" +:+ q) with (String "?"%char q).
  by rewrite Cut_app, unescape_plain.
Qed.

(** The handler's split of a proxy path with a scheme, a host and a rooted
    path. *)
Lemma decodeTarget_proxy scheme host rest q :
  ContainsByte scheme slash = false -> ContainsByte host slash = false ->
  decodeTarget ("/view/" +:+ scheme +:+ "/" +:+ host +:+ "/" +:+ rest) q
  = Ok ("/view/" +:+ scheme +:+ "/" +:+ host +:+ "/",
        mkURL scheme host ("/" +:+ rest) q "").
Proof.
  intros Hs Hh. unfold decodeTarget.
  change ("/view/" +:+ scheme +:+ "/" +:+ host +:+ "/" +:+ rest)
    with ("" +:+ String slash ("view" +:+ String slash
            (scheme +:+ String slash (host +:+ String slash rest)))).
  rewrite !Split_app by done.
  pose proof (Split_not_nil rest slash) as Hnil.
  destruct (Split rest slash) as [|x xs] eqn:Hsplit; [done|].
  cbn -[String.append Join]. f_equal. f_equal.
  - cbn. rewrite !app_assoc. reflexivity.
  - rewrite <- Hsplit. f_equal. f_equal. apply (Join_Split rest slash).
Qed.

End Codec.

Section RoundTrip.

Import Strings StringsFacts.

Lemma avoids_cons s c bytes :
  avoids s (String c bytes) = true ->
  ContainsByte s c = false /\ avoids s bytes = true.
Proof.
  simpl. intros Hc. apply andb_prop in Hc as [Hc Hb].
  split; [by apply negb_true_iff|done].
Qed.

Lemma length_zero s : (0 <? String.length s)%nat = false -> s = "".
Proof. destruct s; [done|]. simpl. discriminate. Qed.

End RoundTrip.

(** ** Root-relative links *)

Section RootRelative.

Import Strings StringsFacts.

Context {urlLib : UrlLib}.

Lemma step_plain rooted kept e :
  element e = true -> Path.step rooted kept e = e :: kept.
Proof.
  unfold element, Path.step. intros He.
  repeat (apply andb_prop in He as [He ?]).
  by repeat match goal with
            | Hx : negb ?b = true |- _ => apply negb_true_iff in Hx; rewrite Hx
            end.
Qed.

(** Elements that stay below their start leave what lies under it alone. *)
Lemma fold_step_within elems kept below :
  within elems (length kept) = true ->
  fold_left (Path.step true) elems (kept ++ below)
  = fold_left (Path.step true) elems kept ++ below.
Proof.
  revert kept. induction elems as [|e elems IH]; intros kept Hw; [reflexivity|].
  simpl in Hw. cbn [fold_left]. unfold Path.step at 2 4.
  destruct (String.eqb e "") eqn:He1; [by apply IH|].
  destruct (String.eqb e ".") eqn:He2; [by apply IH|].
  simpl in Hw. destruct (String.eqb e "..") eqn:He3.
  - destruct kept as [|top kept]; [discriminate|]. by apply IH.
  - by apply (IH (e :: kept)).
Qed.

Lemma fold_step_nonempty rooted elems kept :
  Forall (fun e => e <> "") kept ->
  Forall (fun e => e <> "") (fold_left (Path.step rooted) elems kept).
Proof.
  revert kept. induction elems as [|e elems IH]; intros kept Hk; [done|].
  cbn [fold_left]. apply IH. unfold Path.step.
  destruct (String.eqb_spec e ""); [done|].
  destruct (String.eqb e "."); [done|].
  destruct (String.eqb e "..").
  - destruct kept as [|top kept].
    + destruct rooted; [done|]. by constructor.
    + inversion Hk; subst. destruct rooted; [done|].
      destruct (String.eqb top ".."); [|done]. by constructor.
  - by constructor.
Qed.

Lemma Join_three a b c l :
  Join (a :: b :: c :: l) "/"
  = a +:+ "/" +:+ b +:+ "/" +:+ c
    +:+ match l with [] => "" | _ => "/" +:+ Join l "/" end.
Proof.
  destruct l as [|x l].
  - cbn [Join]. by rewrite app_empty_r.
  - reflexivity.
Qed.

Lemma Join_nonempty x l : x <> "" -> Join (x :: l) "/" <> "".
Proof. intros Hx. destruct l; simpl; [done|]. by destruct x. Qed.

(** [path.Clean] of a rooted path, by its elements. *)
Lemma Clean_rooted rest :
  Path.Clean ("/" +:+ rest)
  = "/" +:+ Join (rev (fold_left (Path.step true) (Split rest slash) [])) "/".
Proof. reflexivity. Qed.

Lemma element_no_slash e : element e = true -> ContainsByte e slash = false.
Proof.
  unfold element. intros He. apply andb_prop in He as [_ He].
  by apply negb_true_iff.
Qed.

(** What [path.Join] cleans for a prefix and a rooted link: the elements
    of the prefix, then those that [Clean] keeps of the link. *)
Lemma Clean_prefixed scheme host rest :
  element scheme = true -> element host = true ->
  within (Split rest slash) 0 = true ->
  Path.Clean (("/view/" +:+ scheme +:+ "/" +:+ host +:+ "/") +:+ "/" +:+ "/" +:+ rest)
  = "/" +:+ Join (["view"; scheme; host]
                  ++ rev (fold_left (Path.step true) (Split rest slash) [])) "/".
Proof.
  intros Hs Hh Hw.
  rewrite !app_assoc.
  change ("/view/" +:+ scheme +:+ "/" +:+ host +:+ "/" +:+ "/" +:+ "/" +:+ rest)
    with ("/" +:+ ("view" +:+ String slash (scheme +:+ String slash
            (host +:+ String slash ("" +:+ String slash ("" +:+ String slash rest)))))).
  rewrite Clean_rooted.
  rewrite !Split_app by (done || by apply element_no_slash).
  cbn [fold_left].
  rewrite (step_plain true [] "view") by done.
  rewrite (step_plain true _ scheme), (step_plain true _ host) by done.
  change (Path.step true (Path.step true [host; scheme; "view"] "") "")
    with ([] ++ [host; scheme; "view"]).
  rewrite fold_step_within by done.
  rewrite rev_app_distr. reflexivity.
Qed.

(** C2, as amended.  For a prefix [/view/<scheme>/<host>/] and a link that
    starts with one slash and whose [..] elements stay below its own root,
    the new value is [/view/<scheme>/<host>] followed by the cleaned link,
    or by nothing when the cleaned link is the root; so it begins with
    [/view/<scheme>/<host>], and with the whole prefix when the cleaned
    link is not the root. *)
Theorem rewriteHref_root_relative (scheme host href : string) :
  element scheme = true -> element host = true ->
  HasPrefix href "/" = true -> HasPrefix href "//" = false ->
  contained href = true ->
  let root := "/view/" +:+ scheme +:+ "/" +:+ host in
  let cleaned := Path.Clean href in
  let value := root +:+ (if String.eqb cleaned "/" then "" else cleaned) in
  rewriteHref href (root +:+ "/") = Ok value
  /\ HasPrefix value root = true
  /\ (cleaned <> "/" -> HasPrefix value (root +:+ "/") = true).
Proof.
  intros Hs Hh Hroot Hproto Hw root cleaned value.
  apply HasPrefix_inv in Hroot as [rest ->].
  change ("/" +:+ rest) with (String slash rest) in *.
  assert (Hrest : within (Split rest slash) 0 = true).
  { exact Hw. }
  assert (Hp : root +:+ "/" = "/view/" +:+ scheme +:+ "/" +:+ host +:+ "/").
  { unfold root. by rewrite !app_assoc. }
  assert (Hvalue : Path.Join [root +:+ "/"; String slash rest] = value).
  { unfold Path.Join.
    change (List.filter _ [root +:+ "/"; String slash rest])
      with [root +:+ "/"; String slash rest].
    rewrite Hp. cbn [Join].
    change (String slash rest) with ("/" +:+ rest).
    rewrite Clean_prefixed by done.
    unfold value, cleaned. change (String slash rest) with ("/" +:+ rest).
    rewrite Clean_rooted.
    pose proof (fold_step_nonempty true (Split rest slash) [] (Forall_nil_2 _)) as Hne.
    apply Forall_rev in Hne.
    destruct (rev (fold_left (Path.step true) (Split rest slash) [])) as [|x l].
    - cbn [app]. rewrite Join_three. unfold root.
      by rewrite !app_assoc.
    - inversion Hne as [|? ? Hx _]; subst.
      pose proof (Join_nonempty x l Hx) as Hj.
      cbn [app]. rewrite Join_three. unfold root.
      destruct (Join (x :: l) "/") as [|c j] eqn:Ej; [done|].
      change (String.eqb ("/" +:+ String c j) "/") with false. cbn match.
      by rewrite !app_assoc. }
  split; [|split].
  - unfold rewriteHref.
    change (HasPrefix (String slash rest) "http://") with false.
    change (HasPrefix (String slash rest) "https://") with false.
    rewrite Hproto. cbn [orb].
    assert (Hr : HasPrefix (String slash rest) "/" = true) by (by destruct rest).
    by rewrite Hr, Hvalue.
  - apply HasPrefix_app.
  - intros Hc. unfold value.
    destruct (String.eqb_spec cleaned "/") as [|_]; [done|].
    unfold cleaned. change (String slash rest) with ("/" +:+ rest).
    rewrite Clean_rooted, HasPrefix_app_l. apply HasPrefix_app.
Qed.

End RootRelative.

Lemma rewriteHref_root_relative_witness :
  Demo.href "/docs/../about/./us" "/view/https/example.com/"
  = Ok "/view/https/example.com/about/us".
Proof.
  apply (rewriteHref_root_relative (urlLib := Demo.url) "https" "example.com"
           "/docs/../about/./us"); reflexivity.
Defined.

(** C2 as stated fails: [..] elements climb out of the prefix, and the
    root link loses the slash that ends the prefix. *)
Lemma rewriteHref_escapes_prefix :
  (exists value,
      Demo.href "/../../x" "/view/https/example.com/" = Ok value
      /\ Strings.HasPrefix value "/view/https/example.com/" = false)
  /\ (exists value,
        Demo.href "/" "/view/https/example.com/" = Ok value
        /\ Strings.HasPrefix value "/view/https/example.com/" = false).
Proof.
  split.
  - exists "/view/x". split; reflexivity.
  - exists "/view/https/example.com". split; reflexivity.
Qed.

(** ** The path of a [/view/] request *)

Section ShortPath.

Context {urlLib : UrlLib} {htmlLib : HtmlLib} {regexpLib : RegexpLib}
        {mimeLib : MimeLib} {codecLib : CodecLib} {network : Network}.

Lemma decodeTarget_short path q :
  (length (Strings.Split path slash) < 4)%nat ->
  decodeTarget path q = Panic SliceBoundsOutOfRange.
Proof.
  intros Hlen. unfold decodeTarget, Slice.upto.
  destruct (Nat.leb_spec 4 (length (Strings.Split path slash))); [lia|].
  reflexivity.
Qed.

(** C9 fails on the code.  A request whose path has fewer than three
    slashes, such as [/view/] or [/view/https], splits into fewer than
    four parts; [parts[:4]] is out of range and the handler panics before
    it answers. *)
Theorem viewHandler_short_path (r : Request) :
  Strings.HasPrefix (Path (ReqURL r)) "/view/" = true ->
  (length (Strings.Split (Path (ReqURL r)) slash) < 4)%nat ->
  viewHandler r = Panic SliceBoundsOutOfRange.
Proof.
  intros _ Hlen. unfold viewHandler.
  by rewrite decodeTarget_short.
Qed.

(** With four parts or more the accesses are in range. *)
Lemma decodeTarget_long path q :
  (4 <= length (Strings.Split path slash))%nat ->
  exists urlPrefix target, decodeTarget path q = Ok (urlPrefix, target).
Proof.
  intros Hlen. unfold decodeTarget, Slice.upto, Slice.from, Slice.index.
  destruct (Nat.leb_spec 4 (length (Strings.Split path slash))); [|lia].
  destruct (Strings.Split path slash) as [|a [|b [|c [|d rest]]]];
    simpl in Hlen; try lia.
  simpl. eauto.
Qed.

End ShortPath.

Lemma viewHandler_short_path_witness :
  Demo.view Demo.unreachable (Demo.get "/view/" []) = Panic SliceBoundsOutOfRange
  /\ Demo.view Demo.unreachable (Demo.get "/view/https" []) = Panic SliceBoundsOutOfRange.
Proof.
  split.
  - apply (viewHandler_short_path (network := Demo.unreachable) (Demo.get "/view/" []));
      [reflexivity | simpl; lia].
  - apply (viewHandler_short_path (network := Demo.unreachable) (Demo.get "/view/https" []));
      [reflexivity | simpl; lia].
Defined.

(** ** Links that do not parse *)

Section UnparsedLink.

Context {urlLib : UrlLib}.

Lemma rewriteHref_unparsed href urlPrefix err :
  absolute href = true -> Parse href = Error err ->
  rewriteHref href urlPrefix = Panic NilPointerDereference.
Proof.
  unfold absolute, rewriteHref. intros -> ->. reflexivity.
Qed.

(** C10 fails on the code.  For an attribute value that begins with
    [http://], [https://] or [//] and that [url.Parse] refuses,
    [rewriteAttr] reads [parsed.Scheme] through the [nil] result before it
    looks at the error, and panics. *)
Theorem rewriteAttr_unparsed (s : Node) (attr urlPrefix err : string) :
  absolute (Goquery.AttrOr s attr "") = true ->
  Parse (Goquery.AttrOr s attr "") = Error err ->
  rewriteAttr attr urlPrefix s = Panic NilPointerDereference.
Proof.
  intros Habs Herr. unfold rewriteAttr.
  by rewrite (rewriteHref_unparsed _ _ err).
Qed.

(** A link that parses is never read through [nil]. *)
Lemma rewriteHref_parsed href urlPrefix parsed :
  Parse href = Value parsed ->
  exists value, rewriteHref href urlPrefix = Ok value.
Proof.
  intros Hp. unfold rewriteHref. rewrite Hp.
  destruct (_ || _); [eauto|]. destruct (Strings.HasPrefix href "/"); eauto.
Qed.

End UnparsedLink.

Lemma rewriteAttr_unparsed_witness :
  rewriteAttr (urlLib := Demo.url) "href" "/view/https/example.com/"
    (mkNode ElementNode "a" [mkAttribute "" "href" "http://example.com:x/"] [])
  = Panic NilPointerDereference.
Proof.
  apply (rewriteAttr_unparsed (urlLib := Demo.url) _ _ _ "invalid port after host");
    reflexivity.
Defined.

(** ** Trees *)

Section Trees.

(** Induction on a tree with the property known of the children. *)
Lemma Node_forall_ind (P : Node -> Prop) :
  (forall t d attrs ch, Forall P ch -> P (mkNode t d attrs ch)) ->
  forall n, P n.
Proof.
  intros IH. fix self 1. intros [t d attrs ch]. apply IH.
  induction ch as [|c ch IHch]; constructor; [apply self | exact IHch].
Qed.

Lemma mapM_Ok {A B} (f : A -> Result B) l l' :
  mapM f l = Ok l' -> Forall2 (fun x y => f x = Ok y) l l'.
Proof.
  revert l'. induction l as [|x l IH]; intros l' Hm; simpl in Hm.
  - injection Hm as <-. constructor.
  - destruct (f x) as [y|] eqn:Hx; [|discriminate].
    destruct (mapM f l) as [ys|]; [|discriminate].
    injection Hm as <-. constructor; [done|by apply IH].
Qed.

Lemma mapM_Panic {A B} (f : A -> Result B) l p :
  mapM f l = Panic p -> Exists (fun x => f x = Panic p) l.
Proof.
  induction l as [|x l IH]; intros Hm; simpl in Hm; [discriminate|].
  destruct (f x) as [y|q] eqn:Hx.
  - destruct (mapM f l) as [ys|q]; [discriminate|].
    injection Hm as ->. apply Exists_cons_tl. by apply IH.
  - injection Hm as ->. by apply Exists_cons_hd.
Qed.

(** A slice on which the function can only fail in one way, and does fail
    somewhere. *)
Lemma mapM_fails {A B} (f : A -> Result B) l p :
  Forall (fun x => (exists y, f x = Ok y) \/ f x = Panic p) l ->
  Exists (fun x => f x = Panic p) l ->
  mapM f l = Panic p.
Proof.
  induction 1 as [|x l Hx Hl IH]; intros Hex; [by inversion Hex|].
  simpl. destruct Hx as [[y Hy]| ->]; [|done].
  rewrite Hy. inversion Hex as [? ? Hx'|? ? Hl']; subst.
  - congruence.
  - by rewrite IH.
Qed.

End Trees.

(** ** Applying the rules to a text *)

Section Rules.

Context {regexpLib : RegexpLib}.

Lemma index_app {A} (pre suf : list A) (x : A) :
  Slice.index (pre ++ x :: suf) (length pre) = Ok x.
Proof.
  unfold Slice.index. rewrite nth_error_app2 by lia.
  by rewrite Nat.sub_diag.
Qed.

(** From a broken rule on, the loop over the expressions calls a method
    of a [nil] expression. *)
Lemma applyRegexps_broken pre suf data :
  Exists broken suf ->
  applyRegexps (compileRules suf) (pre ++ suf) (length pre) data
  = Panic NilPointerDereference.
Proof.
  revert pre data. induction suf as [|rule suf IH]; intros pre data Hex.
  - inversion Hex.
  - cbn [compileRules map applyRegexps]. rewrite index_app. cbn [mbind Result_bind].
    destruct (Compile (Match rule)) as [re|err] eqn:Hc; [|reflexivity].
    cbn [replaceAllString].
    inversion Hex as [? ? [err Herr]|? ? Hsuf]; subst; [congruence|].
    specialize (IH (pre ++ [rule]) (ReplaceAllString re data (Replace rule)) Hsuf).
    rewrite <- app_assoc, length_app in IH. cbn [app length] in IH.
    rewrite Nat.add_1_r in IH. exact IH.
Qed.

(** The loop over the expressions applies the rules in order, each to the
    text left by the one before. *)
Lemma applyRegexps_compiled pre suf compiled data :
  compiledRules suf = Some compiled ->
  applyRegexps (compileRules suf) (pre ++ suf) (length pre) data
  = Ok (applyInOrder compiled data).
Proof.
  revert pre compiled data. induction suf as [|rule suf IH]; intros pre compiled data Hc.
  - injection Hc as <-. reflexivity.
  - cbn [compiledRules] in Hc.
    cbn [compileRules map applyRegexps]. rewrite index_app. cbn [mbind Result_bind].
    destruct (Compile (Match rule)) as [re|err]; [|discriminate].
    destruct (compiledRules suf) as [cs|] eqn:Hcs; [|discriminate].
    injection Hc as <-. cbn [replaceAllString].
    specialize (IH (pre ++ [rule]) cs (ReplaceAllString re data (Replace rule)) eq_refl).
    rewrite <- app_assoc, length_app in IH. cbn [app length] in IH.
    rewrite Nat.add_1_r in IH. exact IH.
Qed.

(** The visitor on the data of one text node, for the rules [A -> B] and
    [B' -> C], both compiling: what the second expression makes of the
    first one's output. *)
Theorem rewriteText_sequential (a b b' c : string) (reA reB : Regexp) (text : string) :
  Compile a = Value reA -> Compile b' = Value reB ->
  let rules := [mkRule a b; mkRule b' c] in
  rewriteText (compileRules rules) rules TextNode text
  = Ok (ReplaceAllString reB (ReplaceAllString reA text b) c).
Proof.
  intros Ha Hb rules. unfold rewriteText. cbn [bool_decide decide_rel].
  rewrite bool_decide_eq_true_2 by done.
  pose proof (applyRegexps_compiled [] rules [(reA, b); (reB, c)] text) as Hseq.
  cbn [app length] in Hseq. rewrite Hseq; [reflexivity|].
  unfold rules. cbn [compiledRules Match Replace]. by rewrite Ha, Hb.
Qed.

(** With rules that all compile, the walk applies them in order to every
    text node and to nothing else. *)
Lemma Walk_compiled rules compiled n :
  compiledRules rules = Some compiled ->
  Walk (rewriteText (compileRules rules) rules) n
  = Ok (mapText (applyInOrder compiled) n).
Proof.
  intros Hc. induction n as [t d attrs ch IH] using Node_forall_ind.
  cbn [Walk mapText]. unfold rewriteText at 1.
  assert (Hd : (if bool_decide (t = TextNode)
                then applyRegexps (compileRules rules) rules 0 d else Ok d)
               = Ok (if bool_decide (t = TextNode) then applyInOrder compiled d else d)).
  { case_bool_decide; [|done]. exact (applyRegexps_compiled [] rules compiled d Hc). }
  rewrite Hd.
  assert (Hch : mapM (Walk (rewriteText (compileRules rules) rules)) ch
                = Ok (map (mapText (applyInOrder compiled)) ch)).
  { induction IH as [|c ch Hx _ IHch]; [done|]. cbn [mapM map]. by rewrite Hx, IHch. }
  by rewrite Hch.
Qed.

End Rules.

Lemma rewriteText_sequential_witness :
  let rules := [mkRule "foo" "bar"; mkRule "bar" "baz"] in
  rewriteText (regexpLib := Demo.regexp) (compileRules rules) rules TextNode "a foo b"
  = Ok "a baz b".
Proof.
  apply (rewriteText_sequential (regexpLib := Demo.regexp)
           "foo" "bar" "bar" "baz" "foo" "bar" "a foo b"); reflexivity.
Defined.

(** ** A rule that does not compile *)

Section BrokenRule.

Context {urlLib : UrlLib} {htmlLib : HtmlLib} {regexpLib : RegexpLib}
        {mimeLib : MimeLib} {codecLib : CodecLib} {network : Network}.

Lemma rewriteText_broken rules t data :
  Exists broken rules ->
  rewriteText (compileRules rules) rules t data
  = if bool_decide (t = TextNode) then Panic NilPointerDereference else Ok data.
Proof.
  intros Hex. unfold rewriteText. case_bool_decide; [|done].
  exact (applyRegexps_broken [] rules data Hex).
Qed.

(** The walk of a tree with a broken rule: it stops at the first text
    node. *)
Lemma Walk_broken rules n :
  Exists broken rules ->
  Walk (rewriteText (compileRules rules) rules) n
  = if hasText n then Panic NilPointerDereference else Ok n.
Proof.
  intros Hex. induction n as [t d attrs ch IH] using Node_forall_ind.
  cbn [Walk hasText]. rewrite rewriteText_broken by done.
  case_bool_decide as Ht; [done|]. cbn [orb].
  induction IH as [|c ch Hc _ IHch]; [done|].
  cbn [mapM existsb]. rewrite Hc.
  destruct (hasText c); [done|]. cbn [orb].
  destruct (existsb hasText ch).
  - by destruct (mapM _ ch).
  - destruct (mapM _ ch) as [ch'|]; [|done]. by injection IHch as ->.
Qed.

Lemma SetAttr_shape s name val :
  nodeType (Goquery.SetAttr s name val) = nodeType s
  /\ nodeChildren (Goquery.SetAttr s name val) = nodeChildren s.
Proof. by destruct s. Qed.

Lemma rewriteAttr_Ok attr urlPrefix s s' :
  rewriteAttr attr urlPrefix s = Ok s' -> nodeType s' = nodeType s.
Proof.
  unfold rewriteAttr. destruct (rewriteHref _ _) as [href|]; [|discriminate].
  cbn [mbind Result_bind]. destruct (0 <? String.length href)%nat.
  - intros [= <-]. apply SetAttr_shape.
  - by intros [= <-].
Qed.

Lemma rewriteAttr_Panic attr urlPrefix s p :
  rewriteAttr attr urlPrefix s = Panic p -> p = NilPointerDereference.
Proof.
  unfold rewriteAttr, rewriteHref.
  destruct (_ || _).
  - destruct (Parse _); cbn [mbind Result_bind]; [|by intros [= <-]].
    by destruct (0 <? _)%nat.
  - destruct (Strings.HasPrefix _ "/"); cbn [mbind Result_bind];
      by destruct (0 <? _)%nat.
Qed.

(** The attribute rewriting leaves the text nodes where they are, and
    fails in one way only. *)
Lemma eachFrom_rewriteAttr tags attr urlPrefix n :
  match Goquery.eachFrom tags (rewriteAttr attr urlPrefix) n with
  | Ok n' => hasText n' = hasText n
  | Panic p => p = NilPointerDereference
  end.
Proof.
  induction n as [t d attrs ch IH] using Node_forall_ind.
  cbn [Goquery.eachFrom nodeChildren].
  assert (Hch : match mapM (Goquery.eachFrom tags (rewriteAttr attr urlPrefix)) ch with
                | Ok ch' => existsb hasText ch' = existsb hasText ch
                | Panic p => p = NilPointerDereference
                end).
  { induction IH as [|c ch Hc _ IHch]; [done|]. cbn [mapM].
    destruct (Goquery.eachFrom _ _ c) as [c'|]; [|done].
    destruct (mapM _ ch) as [ch'|]; [|done].
    cbn [existsb]. by rewrite Hc, IHch. }
  destruct (Goquery.matches tags (mkNode t d attrs ch)).
  - destruct (rewriteAttr _ _ _) as [[t' d' attrs' ch0]|p] eqn:Hr.
    + apply rewriteAttr_Ok in Hr. cbn [nodeType] in Hr. subst t'.
      destruct (mapM _ ch) as [ch'|]; [|done]. cbn [hasText]. by rewrite Hch.
    + by apply rewriteAttr_Panic in Hr.
  - destruct (mapM _ ch) as [ch'|]; [|done]. cbn [hasText]. by rewrite Hch.
Qed.

Lemma FindEach_rewriteAttr tags attr urlPrefix doc :
  match Goquery.FindEach tags (rewriteAttr attr urlPrefix) doc with
  | Ok doc' => hasText doc' = hasText doc
  | Panic p => p = NilPointerDereference
  end.
Proof.
  destruct doc as [t d attrs ch]. cbn [Goquery.FindEach].
  assert (Hch : match mapM (Goquery.eachFrom tags (rewriteAttr attr urlPrefix)) ch with
                | Ok ch' => existsb hasText ch' = existsb hasText ch
                | Panic p => p = NilPointerDereference
                end).
  { induction ch as [|c ch IHch]; [done|]. cbn [mapM].
    pose proof (eachFrom_rewriteAttr tags attr urlPrefix c) as Hc.
    destruct (Goquery.eachFrom _ _ c) as [c'|]; [|done].
    destruct (mapM _ ch) as [ch'|]; [|done].
    cbn [existsb]. by rewrite Hc, IHch. }
  destruct (mapM _ ch) as [ch'|]; cbn [mbind Result_bind]; [|done].
  cbn [hasText]. by rewrite Hch.
Qed.

(** With a broken rule among the caller's rules, the rewriting of a page
    that has a text node panics. *)
Lemma rewriteHTML_broken r urlPrefix buf doc :
  NewDocumentFromReader buf = Value doc ->
  hasText doc = true ->
  Exists broken (getRules r) ->
  rewriteHTML r urlPrefix buf = Panic NilPointerDereference.
Proof.
  intros Hdoc Htext Hex. unfold rewriteHTML. rewrite Hdoc.
  pose proof (FindEach_rewriteAttr ["a"; "link"] "href" urlPrefix doc) as H1.
  destruct (Goquery.FindEach ["a"; "link"] _ doc) as [doc1|]; [|by subst].
  cbn [mbind Result_bind].
  pose proof (FindEach_rewriteAttr ["img"; "script"] "src" urlPrefix doc1) as H2.
  destruct (Goquery.FindEach ["img"; "script"] _ doc1) as [doc2|]; [|by subst].
  cbn [mbind Result_bind].
  pose proof (FindEach_rewriteAttr ["form"] "action" urlPrefix doc2) as H3.
  destruct (Goquery.FindEach ["form"] _ doc2) as [doc3|]; [|by subst].
  cbn [mbind Result_bind].
  rewrite Walk_broken by done.
  by rewrite H3, H2, H1, Htext.
Qed.

(** C3 fails on the code.  The loop that compiles the rules logs the
    error of a broken rule and appends its [nil] expression; the first
    text node of the page then calls [ReplaceAllString] on it.  The
    handler panics and no page is delivered. *)
Theorem viewHandler_broken_rule (r : Request) (urlPrefix : string) (target : URL)
        (resp : Upstream) (buf : string) (doc : Node) :
  decodeTarget (Path (ReqURL r)) (RawQuery (ReqURL r)) = Ok (urlPrefix, target) ->
  Do (outbound r target) = Value resp ->
  UpBody resp = Value buf ->
  classify resp buf = "text/html" ->
  NewDocumentFromReader buf = Value doc ->
  hasText doc = true ->
  Exists broken (getRules r) ->
  viewHandler r = Panic NilPointerDereference.
Proof.
  intros Hpath Hdo Hbody Htype Hdoc Htext Hex. unfold viewHandler.
  rewrite Hpath. cbn [mbind Result_bind].
  rewrite Hdo, Hbody, Htype, String.eqb_refl.
  by rewrite (rewriteHTML_broken _ _ _ doc).
Qed.

End BrokenRule.

Lemma viewHandler_broken_rule_witness :
  Demo.view (Demo.serving (Demo.page200 "text/html; charset=utf-8" "<p>hi</p>"))
            (Demo.get "/view/https/example.com/page.html"
                      [Demo.rulesCookie [mkRule "(" "x"]])
  = Panic NilPointerDereference.
Proof.
  set (up := Demo.page200 "text/html; charset=utf-8" "<p>hi</p>").
  set (r := Demo.get "/view/https/example.com/page.html"
                     [Demo.rulesCookie [mkRule "(" "x"]]).
  apply (viewHandler_broken_rule (network := Demo.serving up) r
           "/view/https/example.com/"
           (mkURL "https" "example.com" "/page.html" "" "")
           up "<p>hi</p>"
           (mkNode DocumentNode "" []
              [mkNode ElementNode "html" []
                 [mkNode ElementNode "head" [] [];
                  mkNode ElementNode "body" []
                    [mkNode ElementNode "p" [] [mkNode TextNode "hi" [] []]]]])).
  - reflexivity.
  - reflexivity.
  - reflexivity.
  - vm_compute. reflexivity.
  - reflexivity.
  - reflexivity.
  - apply Exists_cons_hd. exists "error parsing regexp: (". reflexivity.
Defined.

(** ** Relaying the upstream response *)

Section Relay.

Context {urlLib : UrlLib} {htmlLib : HtmlLib} {regexpLib : RegexpLib}
        {mimeLib : MimeLib} {codecLib : CodecLib} {network : Network}.

(** Every upstream header but [Content-Security-Policy] is relayed as it
    came. *)
Lemma relay_header resp buf key :
  key <> "Content-Security-Policy" ->
  RespHeader (relay resp buf) !! key = UpHeader resp !! key.
Proof. intros Hkey. cbn [relay RespHeader]. by rewrite lookup_delete_ne. Qed.

(** C5.  A body whose media type is not [text/html] reaches the client
    as it was read from upstream, with the upstream status. *)
Theorem viewHandler_passthrough (r : Request) (urlPrefix : string) (target : URL)
        (resp : Upstream) (buf : string) :
  decodeTarget (Path (ReqURL r)) (RawQuery (ReqURL r)) = Ok (urlPrefix, target) ->
  Do (outbound r target) = Value resp ->
  UpBody resp = Value buf ->
  classify resp buf <> "text/html" ->
  exists out, viewHandler r = Ok out
              /\ RespBody out = buf
              /\ StatusCode out = UpStatusCode resp.
Proof.
  intros Hpath Hdo Hbody Htype. exists (relay resp buf).
  split; [|done]. unfold viewHandler.
  rewrite Hpath. cbn [mbind Result_bind]. rewrite Hdo, Hbody.
  by destruct (String.eqb_spec (classify resp buf) "text/html").
Qed.

(** C4 fails on the code.  The body of an HTML page is replaced by the
    rewritten one, and the upstream [Content-Length] is relayed with the
    other headers: the client is told the length of the upstream body. *)
Theorem viewHandler_forwards_Content_Length (r : Request) (urlPrefix : string)
        (target : URL) (resp : Upstream) (buf body : string) :
  decodeTarget (Path (ReqURL r)) (RawQuery (ReqURL r)) = Ok (urlPrefix, target) ->
  Do (outbound r target) = Value resp ->
  UpBody resp = Value buf ->
  classify resp buf = "text/html" ->
  rewriteHTML (outbound r target) urlPrefix buf = Ok (Value body) ->
  exists out, viewHandler r = Ok out
              /\ RespBody out = body
              /\ RespHeader out !! "Content-Length" = UpHeader resp !! "Content-Length".
Proof.
  intros Hpath Hdo Hbody Htype Hrewrite. exists (relay resp body).
  split; [|split; [done|by apply relay_header]].
  unfold viewHandler.
  rewrite Hpath. cbn [mbind Result_bind].
  rewrite Hdo, Hbody, Htype, String.eqb_refl, Hrewrite. reflexivity.
Qed.

End Relay.

Lemma viewHandler_passthrough_witness :
  exists out,
    Demo.view (Demo.serving (Demo.page200 "application/xhtml+xml" "<p>hi</p>"))
              (Demo.get "/view/https/example.com/page.xhtml" []) = Ok out
    /\ RespBody out = "<p>hi</p>"
    /\ StatusCode out = 200%nat.
Proof.
  apply (viewHandler_passthrough
           (network := Demo.serving (Demo.page200 "application/xhtml+xml" "<p>hi</p>"))
           (Demo.get "/view/https/example.com/page.xhtml" [])
           "/view/https/example.com/"
           (mkURL "https" "example.com" "/page.xhtml" "" "")
           (Demo.page200 "application/xhtml+xml" "<p>hi</p>") "<p>hi</p>").
  - reflexivity.
  - reflexivity.
  - reflexivity.
  - vm_compute. discriminate.
Defined.

Lemma viewHandler_forwards_Content_Length_witness :
  exists out,
    Demo.view (Demo.serving Demo.twoBytes) (Demo.get "/view/https/example.com/" []) = Ok out
    /\ RespBody out = "<html><head></head><body>hi</body></html>"
    /\ RespHeader out !! "Content-Length" = UpHeader Demo.twoBytes !! "Content-Length".
Proof.
  apply (viewHandler_forwards_Content_Length
           (network := Demo.serving Demo.twoBytes)
           (Demo.get "/view/https/example.com/" [])
           "/view/https/example.com/"
           (mkURL "https" "example.com" "/" "" "")
           Demo.twoBytes "hi").
  - reflexivity.
  - reflexivity.
  - reflexivity.
  - vm_compute. reflexivity.
  - vm_compute. reflexivity.
Defined.

(** The length that the client is told and the length of what it is sent. *)
Lemma twoBytes_stale :
  UpHeader Demo.twoBytes !! "Content-Length" = Some ["2"]
  /\ String.length "<html><head></head><body>hi</body></html>" = 41%nat.
Proof. split; vm_compute; reflexivity. Qed.

(** ** The control page and the rules cookie *)

Section Control.

Context {urlLib : UrlLib} {htmlLib : HtmlLib} {regexpLib : RegexpLib}
        {codecLib : CodecLib} {templateLib : TemplateLib}.

Lemma storeCookies_nil jar : Client.storeCookies jar [] = jar.
Proof.
  unfold Client.storeCookies. cbn [app existsb negb].
  induction jar as [|c jar IH]; [done|]. cbn [List.filter]. by rewrite IH.
Qed.

(** C6, as amended.  A submission whose [match] does not compile is
    answered with status 400 and, as body, the compiler's message followed
    by the line feed that [http.Error] adds; no cookie is set, so the
    client's next request carries the rule list of this one: the submitted
    pattern is in the next rule list exactly when the caller's cookie
    already held it. *)
Theorem indexHandler_invalid_match (r : Request) (err : string) :
  Method r = "POST" ->
  Compile (FormValue r "match") = Error err ->
  StatusCode (indexHandler r) = 400%nat
  /\ RespBody (indexHandler r) = err +:+ newline
  /\ SetCookies (indexHandler r) = []
  /\ (forall next,
         Cookies next = Client.storeCookies (Cookies r) (SetCookies (indexHandler r)) ->
         getRules next = getRules r
         /\ (In (FormValue r "match") (map Match (getRules next))
             <-> In (FormValue r "match") (map Match (getRules r)))).
Proof.
  intros Hpost Herr.
  assert (Hout : indexHandler r = httpError err 400).
  { unfold indexHandler. by rewrite Hpost, Herr. }
  rewrite Hout. split; [done|]. split; [done|]. split; [done|].
  intros next Hnext. cbn [httpError SetCookies] in Hnext.
  rewrite storeCookies_nil in Hnext.
  assert (Hsame : getRules next = getRules r) by (unfold getRules; by rewrite Hnext).
  by rewrite Hsame.
Qed.

Lemma getRules_withCookies_nil r : getRules (withCookies r []) = [].
Proof. reflexivity. Qed.

(** C7.  A [rules] cookie that cannot be read gives the empty rule list,
    and both handlers go on as they do for a request without cookies: the
    control page is the page of that request, and a page is rewritten as
    it is for that request. *)
Theorem getRules_unreadable (r : Request) :
  unreadable r ->
  getRules r = []
  /\ indexHandler r = indexHandler (withCookies r [])
  /\ (forall urlPrefix buf,
         rewriteHTML r urlPrefix buf = rewriteHTML (withCookies r []) urlPrefix buf).
Proof.
  intros Hr.
  assert (Hrules : getRules r = []).
  { unfold getRules.
    destruct Hr as [-> | [(c & err & -> & ->) | (c & body & err & -> & -> & ->)]];
      reflexivity. }
  split; [done|]. split.
  - unfold indexHandler. by rewrite Hrules, getRules_withCookies_nil.
  - intros urlPrefix buf. unfold rewriteHTML.
    by rewrite Hrules, getRules_withCookies_nil.
Qed.

End Control.

Lemma indexHandler_invalid_match_witness :
  let r := Demo.post "(" "x" [Demo.rulesCookie [mkRule "foo" "bar"]] in
  StatusCode (Demo.index r) = 400%nat
  /\ RespBody (Demo.index r) = "error parsing regexp: (" +:+ newline
  /\ SetCookies (Demo.index r) = []
  /\ (forall next,
         Cookies next = Client.storeCookies (Cookies r) (SetCookies (Demo.index r)) ->
         Demo.rulesOf next = Demo.rulesOf r
         /\ (In "(" (map Match (Demo.rulesOf next))
             <-> In "(" (map Match (Demo.rulesOf r)))).
Proof.
  intros r.
  apply (indexHandler_invalid_match (regexpLib := Demo.regexp) (codecLib := Demo.codec)
           (templateLib := Demo.template) r "error parsing regexp: (").
  - reflexivity.
  - vm_compute. reflexivity.
Defined.

(** C6 as stated fails: the body is not the message alone, and a pattern
    that the caller's cookie already holds is in the next rule list after
    its submission is refused. *)
Lemma indexHandler_pattern_stays :
  let r := Demo.post "(" "x" [Demo.rulesCookie [mkRule "(" "y"]] in
  let next := Demo.get "/" (Client.storeCookies (Cookies r) (SetCookies (Demo.index r))) in
  Demo.compileLiteral (FormValue r "match") = Error "error parsing regexp: ("
  /\ StatusCode (Demo.index r) = 400%nat
  /\ RespBody (Demo.index r) <> "error parsing regexp: ("
  /\ In (FormValue r "match") (map Match (Demo.rulesOf next)).
Proof.
  intros r next. split; [vm_compute; reflexivity|]. split; [reflexivity|].
  split; [vm_compute; discriminate|]. vm_compute. by left.
Qed.

Lemma getRules_unreadable_witness :
  Demo.rulesOf (Demo.get "/" []) = []
  /\ Demo.rulesOf (Demo.get "/" [mkCookie "rules" "!!!!" "/" true]) = []
  /\ Demo.rulesOf (Demo.get "/" [mkCookie "rules" (Demo.encode "[1]") "/" true]) = [].
Proof.
  split; [|split].
  - apply (getRules_unreadable (urlLib := Demo.url) (htmlLib := Demo.html)
             (regexpLib := Demo.regexp) (codecLib := Demo.codec)
             (templateLib := Demo.template) (Demo.get "/" [])).
    left. reflexivity.
  - apply (getRules_unreadable (urlLib := Demo.url) (htmlLib := Demo.html)
             (regexpLib := Demo.regexp) (codecLib := Demo.codec)
             (templateLib := Demo.template)
             (Demo.get "/" [mkCookie "rules" "!!!!" "/" true])).
    right. left. eexists _, _. split; reflexivity.
  - apply (getRules_unreadable (urlLib := Demo.url) (htmlLib := Demo.html)
             (regexpLib := Demo.regexp) (codecLib := Demo.codec)
             (templateLib := Demo.template)
             (Demo.get "/" [mkCookie "rules" (Demo.encode "[1]") "/" true])).
    right. right. eexists _, _, _. repeat split; reflexivity.
Defined.

(** ** The scenarios of the specification, on the small libraries *)

(** A root-relative link of a page of [example.com] points into the proxy. *)
Lemma scenario_root_relative_link :
  let page := "<a href=" +:+ Demo.quote +:+ "/about" +:+ Demo.quote +:+ ">About</a>" in
  let rewritten := "<a href=" +:+ Demo.quote +:+ "/view/https/example.com/about"
                   +:+ Demo.quote +:+ ">About</a>" in
  exists out,
    Demo.view (Demo.serving (Demo.page200 "text/html; charset=utf-8" page))
              (Demo.get "/view/https/example.com/page.html" []) = Ok out
    /\ RespBody out = "<html><head></head><body>" +:+ rewritten +:+ "</body></html>".
Proof. eexists. split; vm_compute; reflexivity. Qed.

(** An absolute link to another origin is encoded with its own scheme and
    host. *)
Lemma scenario_absolute_link :
  let page := "<img src=" +:+ Demo.quote +:+ "http://cdn.example.org/x.png"
              +:+ Demo.quote +:+ ">" in
  let rewritten := "<img src=" +:+ Demo.quote +:+ "/view/http/cdn.example.org/x.png"
                   +:+ Demo.quote +:+ ">" in
  exists out,
    Demo.view (Demo.serving (Demo.page200 "text/html" page))
              (Demo.get "/view/https/example.com/page.html" []) = Ok out
    /\ RespBody out = "<html><head></head><body>" +:+ rewritten +:+ "</body></html>".
Proof. eexists. split; vm_compute; reflexivity. Qed.

(** A stored rule rewrites the text of the page. *)
Lemma scenario_stored_rule :
  exists out,
    Demo.view (Demo.serving (Demo.page200 "text/html" "foo baz"))
              (Demo.get "/view/https/example.com/page.html"
                        [Demo.rulesCookie [mkRule "foo" "bar"]]) = Ok out
    /\ RespBody out = "<html><head></head><body>bar baz</body></html>".
Proof. eexists. split; vm_compute; reflexivity. Qed.

(** A rule that compiles is added to the caller's list and comes back with
    the next request. *)
Lemma scenario_add_rule :
  let first := Demo.index (Demo.post "foo" "bar" []) in
  let second := Demo.index (Demo.post "bar" "baz" (SetCookies first)) in
  Demo.rulesOf (Demo.get "/" (Client.storeCookies (SetCookies first) (SetCookies second)))
  = [mkRule "foo" "bar"; mkRule "bar" "baz"].
Proof. vm_compute. reflexivity. Qed.

(** * Further properties of the program *)

(** ** The target of a [/view/] request *)

Section Target.

Import Strings StringsFacts.

(** [strings.Split] gives one part more than there are separators. *)
Lemma Split_count s c : length (Split s c) = S (countByte s c).
Proof.
  induction s as [|d s IH]; [reflexivity|]. simpl.
  destruct (Ascii.eqb d c).
  - simpl. by rewrite IH.
  - pose proof (Split_not_nil s c). destruct (Split s c); [done|].
    simpl in *. lia.
Qed.

(** No part of a split contains the separator. *)
Lemma Split_parts s c : Forall (fun part => ContainsByte part c = false) (Split s c).
Proof.
  induction s as [|d s IH]; [by repeat constructor|]. simpl.
  destruct (Ascii.eqb d c) eqn:Hd.
  - by constructor.
  - pose proof (Split_not_nil s c). destruct (Split s c) as [|x xs]; [done|].
    inversion IH; subst. constructor; [|done]. simpl. by rewrite Hd.
Qed.

(** X1.  The first lines of the [/view/] handler succeed exactly on the paths
    with three slashes or more; on every other path they panic. *)
Theorem decodeTarget_succeeds_iff (path rawQuery : string) :
  (exists urlPrefix target, decodeTarget path rawQuery = Ok (urlPrefix, target))
  <-> (3 <= countByte path slash)%nat.
Proof.
  pose proof (Split_count path slash) as Hcount. split.
  - intros (urlPrefix & target & Hok).
    destruct (Nat.le_gt_cases 3 (countByte path slash)) as [|Hlt]; [done|].
    rewrite decodeTarget_short in Hok by lia. discriminate.
  - intros Hle. apply decodeTarget_long. lia.
Qed.

(** X2.  What the handler decodes: a scheme and a host without a slash, a path
    that starts with a slash, the query of the request as it came, no
    fragment, and a prefix for the links of the page that ends with a
    slash. *)
Theorem decodeTarget_shape (path rawQuery urlPrefix : string) (target : URL) :
  decodeTarget path rawQuery = Ok (urlPrefix, target) ->
  ContainsByte (Scheme target) slash = false
  /\ ContainsByte (Host target) slash = false
  /\ HasPrefix (Path target) "/" = true
  /\ RawQuery target = rawQuery
  /\ Fragment target = ""
  /\ exists init, urlPrefix = init +:+ Scheme target +:+ "/" +:+ Host target +:+ "/".
Proof.
  unfold decodeTarget, Slice.upto, Slice.from, Slice.index.
  pose proof (Split_parts path slash) as Hparts.
  destruct (Split path slash) as [|a [|b [|c [|d rest]]]]; try discriminate.
  cbn. intros [= <- <-]. cbn [Scheme Host Path RawQuery Fragment].
  inversion Hparts as [|? ? _ H1]; subst. inversion H1 as [|? ? _ H2]; subst.
  inversion H2 as [|? ? Hc H3]; subst. inversion H3 as [|? ? Hd _]; subst.
  repeat split; try done.
  - apply (HasPrefix_app "/").
  - exists (a +:+ "/" +:+ b +:+ "/"). by rewrite !app_assoc.
Qed.


End Target.

Lemma decodeTarget_shape_witness :
  Strings.ContainsByte "https" slash = false
  /\ Strings.ContainsByte "example.com" slash = false
  /\ Strings.HasPrefix "/a/b" "/" = true
  /\ "x=1" = "x=1"
  /\ "" = ""
  /\ exists init, "/view/https/example.com/" = init +:+ "https" +:+ "/" +:+ "example.com" +:+ "/".
Proof.
  apply (decodeTarget_shape "/view/https/example.com/a/b" "x=1"
           "/view/https/example.com/" (mkURL "https" "example.com" "/a/b" "x=1" "")).
  reflexivity.
Defined.


(** ** What [rewriteAttr] changes *)

Section Attributes.

Import Strings StringsFacts.

Context {urlLib : UrlLib}.

Lemma setAttributeValue_same name v attrs :
  Goquery.getAttributeValue name attrs = Some v ->
  Goquery.setAttributeValue name v attrs = attrs.
Proof.
  induction attrs as [|a attrs IH]; [discriminate|]. simpl.
  destruct (String.eqb (Key a) name).
  - intros [= <-]. by destruct a.
  - intros Hv. by rewrite IH.
Qed.

Lemma getAttributeValue_set name v attrs :
  Goquery.getAttributeValue name (Goquery.setAttributeValue name v attrs) = Some v.
Proof.
  induction attrs as [|a attrs IH]; simpl.
  - by rewrite String.eqb_refl.
  - destruct (String.eqb (Key a) name) eqn:Ha; simpl; by rewrite Ha.
Qed.

Lemma getAttributeValue_set_other name other v attrs :
  other <> name ->
  Goquery.getAttributeValue other (Goquery.setAttributeValue name v attrs)
  = Goquery.getAttributeValue other attrs.
Proof.
  intros Hne. induction attrs as [|a attrs IH]; simpl.
  - destruct (String.eqb_spec name other); [congruence|done].
  - destruct (String.eqb_spec (Key a) name) as [Ha|Ha]; simpl.
    + rewrite Ha. destruct (String.eqb_spec name other); [congruence|done].
    + by rewrite IH.
Qed.

Lemma HasPrefix_app_more s t p : HasPrefix s p = true -> HasPrefix (s +:+ t) p = true.
Proof.
  intros Hs. apply HasPrefix_inv in Hs as [u ->].
  rewrite app_assoc. apply HasPrefix_app.
Qed.

Lemma proxyPath_view parsed : HasPrefix (proxyPath parsed) "/view/" = true.
Proof.
  unfold proxyPath.
  destruct (0 <? String.length (RawQuery parsed))%nat;
    destruct (0 <? String.length (Fragment parsed))%nat;
    rewrite ?app_assoc; apply HasPrefix_app.
Qed.

Lemma Clean_not_empty path : Path.Clean path <> "".
Proof.
  unfold Path.Clean. destruct path as [|c path]; [done|].
  cbv zeta.
  match goal with |- context [String.eqb ?out ""] => by destruct (String.eqb_spec out "") end.
Qed.

(** The new value of an attribute is empty only for an empty or missing
    attribute. *)
Lemma rewriteHref_empty href urlPrefix :
  rewriteHref href urlPrefix = Ok "" -> href = "".
Proof.
  unfold rewriteHref. destruct (_ || _).
  - destruct (Parse href) as [parsed|]; [|discriminate].
    intros [= Hp]. pose proof (proxyPath_view
      (if (String.length (Scheme parsed) =? 0)%nat
       then mkURL "https" (Host parsed) (Path parsed) (RawQuery parsed) (Fragment parsed)
       else parsed)) as Hv.
    rewrite Hp in Hv. discriminate.
  - destruct (HasPrefix href "/") eqn:Hroot; [|by intros [= ->]].
    intros [= Hj]. destruct href as [|c href]; [done|].
    unfold Path.Join in Hj. cbn [List.filter String.eqb negb] in Hj.
    destruct (negb (String.eqb urlPrefix "")); by apply Clean_not_empty in Hj.
Qed.

(** X5.  [rewriteAttr] writes one attribute and nothing else: the node keeps its
    type, data and children and every other attribute, and the attribute
    then reads as the new value. *)
Theorem rewriteAttr_frame (attr urlPrefix : string) (s s' : Node) :
  rewriteAttr attr urlPrefix s = Ok s' ->
  rewriteHref (Goquery.AttrOr s attr "") urlPrefix = Ok (Goquery.AttrOr s' attr "")
  /\ nodeType s' = nodeType s
  /\ nodeData s' = nodeData s
  /\ nodeChildren s' = nodeChildren s
  /\ forall other, other <> attr ->
       Goquery.getAttributeValue other (nodeAttr s')
       = Goquery.getAttributeValue other (nodeAttr s).
Proof.
  unfold rewriteAttr.
  destruct (rewriteHref (Goquery.AttrOr s attr "") urlPrefix) as [href|] eqn:Hhref;
    [|discriminate].
  cbn [mbind Result_bind].
  destruct (0 <? String.length href)%nat eqn:Hlen; intros [= <-].
  - destruct s as [t d attrs ch]. unfold Goquery.AttrOr.
    cbn [Goquery.SetAttr nodeAttr nodeType nodeData nodeChildren].
    rewrite getAttributeValue_set. repeat split; try done.
    intros other Hne. by apply getAttributeValue_set_other.
  - destruct href; [|discriminate].
    apply rewriteHref_empty in Hhref as Hempty. rewrite Hempty. by rewrite Hempty in Hhref.
Qed.

(** X6.  A link that is neither absolute nor rooted (a relative link, [mailto:],
    [javascript:], a fragment, an empty or a missing attribute) is left as
    it is, and a missing attribute is not created. *)
Theorem rewriteAttr_other_links (attr urlPrefix : string) (s : Node) :
  absolute (Goquery.AttrOr s attr "") = false ->
  HasPrefix (Goquery.AttrOr s attr "") "/" = false ->
  rewriteAttr attr urlPrefix s = Ok s.
Proof.
  intros Habs Hroot. unfold rewriteAttr, rewriteHref.
  unfold absolute in Habs. rewrite Habs, Hroot. cbn [mbind Result_bind].
  destruct (0 <? String.length (Goquery.AttrOr s attr ""))%nat eqn:Hlen; [|done].
  destruct s as [t d attrs ch]. unfold Goquery.AttrOr in *.
  cbn [Goquery.SetAttr nodeAttr] in *.
  destruct (Goquery.getAttributeValue attr attrs) as [v|] eqn:Hv; [|discriminate].
  by rewrite setAttributeValue_same.
Qed.

(** X7.  An absolute link that parses is encoded under [/view/], with [https]
    for a link without a scheme, whatever the page it is found on. *)
Theorem rewriteHref_absolute (href urlPrefix : string) (parsed : URL) :
  absolute href = true ->
  Parse href = Value parsed ->
  exists value,
    rewriteHref href urlPrefix = Ok value
    /\ HasPrefix value "/view/" = true
    /\ (Scheme parsed = "" -> HasPrefix value ("/view/https/" +:+ Host parsed) = true)
    /\ forall otherPrefix, rewriteHref href otherPrefix = Ok value.
Proof.
  intros Habs Hparse. unfold rewriteHref, absolute in *. rewrite Habs, Hparse.
  eexists. split; [reflexivity|]. split; [apply proxyPath_view|]. split; [|done].
  intros ->. cbn [String.length Nat.eqb]. unfold proxyPath.
  cbn [Scheme Host Path RawQuery Fragment].
  assert (Hbase : HasPrefix ("/view/" +:+ "https" +:+ "/" +:+ Host parsed +:+ Path parsed)
                             ("/view/https/" +:+ Host parsed) = true).
  { change ("/view/" +:+ "https" +:+ "/" +:+ Host parsed +:+ Path parsed)
      with ("/view/https/" +:+ Host parsed +:+ Path parsed).
    rewrite <- app_assoc. apply HasPrefix_app. }
  destruct (0 <? String.length (RawQuery parsed))%nat;
    destruct (0 <? String.length (Fragment parsed))%nat;
    repeat first [exact Hbase | apply HasPrefix_app_more].
Qed.

End Attributes.

Lemma rewriteAttr_frame_witness :
  let s := mkNode ElementNode "a"
             [mkAttribute "" "class" "nav"; mkAttribute "" "href" "/about"]
             [mkNode TextNode "About" [] []] in
  let s' := mkNode ElementNode "a"
              [mkAttribute "" "class" "nav";
               mkAttribute "" "href" "/view/https/example.com/about"]
              [mkNode TextNode "About" [] []] in
  Demo.href (Goquery.AttrOr s "href" "") "/view/https/example.com/"
  = Ok (Goquery.AttrOr s' "href" "")
  /\ nodeType s' = nodeType s
  /\ nodeData s' = nodeData s
  /\ nodeChildren s' = nodeChildren s
  /\ forall other, other <> "href" ->
       Goquery.getAttributeValue other (nodeAttr s')
       = Goquery.getAttributeValue other (nodeAttr s).
Proof.
  intros s s'.
  apply (rewriteAttr_frame (urlLib := Demo.url) "href" "/view/https/example.com/" s s').
  reflexivity.
Defined.

Lemma rewriteAttr_other_links_witness :
  let s := mkNode ElementNode "a" [mkAttribute "" "href" "mailto:someone@example.com"] [] in
  let t := mkNode ElementNode "a" [mkAttribute "" "name" "top"] [] in
  rewriteAttr (urlLib := Demo.url) "href" "/view/https/example.com/" s = Ok s
  /\ rewriteAttr (urlLib := Demo.url) "href" "/view/https/example.com/" t = Ok t.
Proof.
  intros s t. split.
  - apply (rewriteAttr_other_links (urlLib := Demo.url)); reflexivity.
  - apply (rewriteAttr_other_links (urlLib := Demo.url)); reflexivity.
Defined.

Lemma rewriteHref_absolute_witness :
  exists value,
    Demo.href "//cdn.example.org/x.png?v=2" "/view/http/example.com/" = Ok value
    /\ Strings.HasPrefix value "/view/" = true
    /\ ("" = "" -> Strings.HasPrefix value ("/view/https/" +:+ "cdn.example.org") = true)
    /\ forall otherPrefix, Demo.href "//cdn.example.org/x.png?v=2" otherPrefix = Ok value.
Proof.
  apply (rewriteHref_absolute (urlLib := Demo.url) "//cdn.example.org/x.png?v=2"
           "/view/http/example.com/" (mkURL "" "cdn.example.org" "/x.png" "v=2" ""));
    reflexivity.
Defined.

(** ** The walk of the tree *)

Section Walking.

Context {regexpLib : RegexpLib}.

Lemma mapText_id n : mapText (fun data => data) n = n.
Proof.
  induction n as [t d attrs ch IH] using Node_forall_ind. cbn [mapText].
  assert (Hch : map (mapText (fun data => data)) ch = ch).
  { induction IH as [|c ch Hc _ IHch]; [done|]. cbn [map]. by rewrite Hc, IHch. }
  rewrite Hch. by destruct (bool_decide (t = TextNode)).
Qed.

(** X9.  Without rules the walk leaves every node as it is. *)
Theorem Walk_no_rules (n : Node) :
  Walk (rewriteText (compileRules []) []) n = Ok n.
Proof.
  rewrite (Walk_compiled [] [] n eq_refl).
  f_equal. apply mapText_id.
Qed.

(** Rules either all compile or one of them is broken. *)
Lemma compiled_or_broken rules :
  (exists compiled, compiledRules rules = Some compiled) \/ Exists broken rules.
Proof.
  induction rules as [|rule rules IH]; [left; by exists []|].
  cbn [compiledRules].
  destruct (Compile (Match rule)) as [re|err] eqn:Hc.
  - destruct IH as [[cs ->]|Hex]; [left; eauto|right; by apply Exists_cons_tl].
  - right. apply Exists_cons_hd. by exists err.
Qed.

(** X10.  With rules that all compile the walk does not panic: the data of every
    text node becomes what the rules make of it, in their order, and
    nothing else of the tree changes. *)
Theorem Walk_rewrites_text (rules : list Rule) (compiled : list (Regexp * string)) (n : Node) :
  compiledRules rules = Some compiled ->
  Walk (rewriteText (compileRules rules) rules) n
  = Ok (mapText (applyInOrder compiled) n).
Proof. apply Walk_compiled. Qed.

(** X11.  The walk panics exactly when a rule is broken and the tree has a text
    node; the rule of an expression is always in range. *)
Theorem Walk_panics_iff (rules : list Rule) (n : Node) (p : PanicKind) :
  Walk (rewriteText (compileRules rules) rules) n = Panic p
  <-> p = NilPointerDereference /\ Exists broken rules /\ hasText n = true.
Proof.
  split.
  - intros Hp. destruct (compiled_or_broken rules) as [[cs Hcs]|Hex].
    + rewrite (Walk_compiled rules cs n Hcs) in Hp. discriminate.
    + rewrite (Walk_broken rules n Hex) in Hp.
      destruct (hasText n); [|discriminate]. by injection Hp as <-.
  - intros (-> & Hex & Htext). by rewrite (Walk_broken rules n Hex), Htext.
Qed.

(** X12.  Walk calls f once for the node and each of its descendants: the parent
    first, then the children in document order. *)
Theorem WalkFold_preorder {S : Type} (f : Node -> S -> S) (n : Node) (s : S) :
  WalkFold f n s = fold_left (fun s m => f m s) (preorder n) s.
Proof.
  revert s. induction n as [t d attrs ch IH] using Node_forall_ind. intros s.
  cbn [WalkFold preorder nodeChildren fold_left].
  generalize (f (mkNode t d attrs ch) s). clear s.
  induction IH as [|c ch Hc _ IHch]; intros s; [done|].
  cbn [fold_left flat_map]. rewrite fold_left_app, Hc. apply IHch.
Qed.

End Walking.

Lemma Walk_rewrites_text_witness :
  let rules := [mkRule "foo" "bar"; mkRule "bar" "baz"] in
  let n := mkNode ElementNode "p" [mkAttribute "" "title" "foo"]
             [mkNode TextNode "a foo b" [] []; mkNode CommentNode "foo" [] []] in
  Walk (rewriteText (regexpLib := Demo.regexp) (compileRules rules) rules) n
  = Ok (mkNode ElementNode "p" [mkAttribute "" "title" "foo"]
          [mkNode TextNode "a baz b" [] []; mkNode CommentNode "foo" [] []]).
Proof.
  intros rules n.
  apply (Walk_rewrites_text (regexpLib := Demo.regexp) rules
           [("foo", "bar"); ("bar", "baz")] n).
  reflexivity.
Defined.

(** ** What the rewriting of the links changes in a document *)

Section Selected.

Context {urlLib : UrlLib}.

Lemma otherAttrs_set attr v attrs :
  otherAttrs attr (Goquery.setAttributeValue attr v attrs) = otherAttrs attr attrs.
Proof.
  unfold otherAttrs. induction attrs as [|a attrs IH]; simpl.
  - by rewrite String.eqb_refl.
  - destruct (String.eqb (Key a) attr) eqn:Ha; simpl; rewrite Ha; simpl; [done|].
    by rewrite IH.
Qed.

Lemma rewriteAttr_besides attr urlPrefix t d attrs ch s' :
  rewriteAttr attr urlPrefix (mkNode t d attrs ch) = Ok s' ->
  exists attrs', s' = mkNode t d attrs' ch /\ otherAttrs attr attrs' = otherAttrs attr attrs.
Proof.
  unfold rewriteAttr. destruct (rewriteHref _ _) as [href|]; [|discriminate].
  cbn [mbind Result_bind]. destruct (0 <? String.length href)%nat; intros [= <-].
  - eexists. split; [reflexivity|]. apply otherAttrs_set.
  - by eexists.
Qed.

Lemma eachFrom_besides tags attr urlPrefix n n' :
  Goquery.eachFrom tags (rewriteAttr attr urlPrefix) n = Ok n' ->
  besides tags attr n' = besides tags attr n.
Proof.
  revert n'. induction n as [t d attrs ch IH] using Node_forall_ind. intros n'.
  cbn [Goquery.eachFrom nodeChildren].
  assert (Hch : forall ch', mapM (Goquery.eachFrom tags (rewriteAttr attr urlPrefix)) ch = Ok ch' ->
                            map (besides tags attr) ch' = map (besides tags attr) ch).
  { induction IH as [|c ch Hc _ IHch]; intros ch'; cbn [mapM].
    - by intros [= <-].
    - destruct (Goquery.eachFrom _ _ c) as [c'|]; [|discriminate].
      destruct (mapM _ ch) as [cs'|]; [|discriminate].
      intros [= <-]. cbn [map]. by rewrite (Hc c'), (IHch cs'). }
  destruct (Goquery.matches tags (mkNode t d attrs ch)) eqn:Hm.
  - destruct (rewriteAttr _ _ _) as [s'|] eqn:Hs; [|discriminate].
    apply rewriteAttr_besides in Hs as (attrs' & -> & Hattrs).
    destruct (mapM _ ch) as [ch'|] eqn:Hmap; [|discriminate].
    intros [= <-]. cbn [besides].
    change (Goquery.matches tags (mkNode t d attrs' ch'))
      with (Goquery.matches tags (mkNode t d attrs ch)).
    rewrite Hm, Hattrs. by rewrite (Hch ch').
  - destruct (mapM _ ch) as [ch'|] eqn:Hmap; [|discriminate].
    intros [= <-]. cbn [besides].
    change (Goquery.matches tags (mkNode t d attrs ch'))
      with (Goquery.matches tags (mkNode t d attrs ch)).
    rewrite Hm. by rewrite (Hch ch').
Qed.

Lemma FindEach_besides tags attr urlPrefix doc doc' :
  Goquery.FindEach tags (rewriteAttr attr urlPrefix) doc = Ok doc' ->
  besidesIn tags attr doc' = besidesIn tags attr doc.
Proof.
  destruct doc as [t d attrs ch]. cbn [Goquery.FindEach].
  destruct (mapM _ ch) as [ch'|] eqn:Hmap; cbn [mbind Result_bind]; [|discriminate].
  intros [= <-]. cbn [besidesIn]. f_equal.
  apply mapM_Ok in Hmap.
  induction Hmap as [|c c' ch ch' Hc _ IH]; [done|].
  cbn [map]. by rewrite (eachFrom_besides _ _ _ _ _ Hc), IH.
Qed.

(** X8.  A pass of [rewriteAttr] over the selected elements changes nothing but
    the attribute [attr] of those elements: the tree, the text, the other
    attributes and every element that is not selected stay as they are. *)
Theorem FindEach_selected_only (tags : list string) (attr urlPrefix : string)
        (doc doc' : Node) :
  Goquery.FindEach tags (rewriteAttr attr urlPrefix) doc = Ok doc' ->
  besidesIn tags attr doc' = besidesIn tags attr doc.
Proof. apply FindEach_besides. Qed.

End Selected.

Lemma FindEach_selected_only_witness :
  let doc := mkNode DocumentNode "" []
               [mkNode ElementNode "p" [mkAttribute "" "href" "/kept"]
                  [mkNode ElementNode "a"
                     [mkAttribute "" "class" "nav"; mkAttribute "" "href" "/about"]
                     [mkNode TextNode "About" [] []]]] in
  let doc' := mkNode DocumentNode "" []
                [mkNode ElementNode "p" [mkAttribute "" "href" "/kept"]
                   [mkNode ElementNode "a"
                      [mkAttribute "" "class" "nav";
                       mkAttribute "" "href" "/view/https/example.com/about"]
                      [mkNode TextNode "About" [] []]]] in
  besidesIn ["a"; "link"] "href" doc' = besidesIn ["a"; "link"] "href" doc.
Proof.
  intros doc doc'.
  apply (FindEach_selected_only (urlLib := Demo.url) ["a"; "link"] "href"
           "/view/https/example.com/" doc doc').
  reflexivity.
Defined.

(** ** Adding a rule *)

Section Adding.

Context {regexpLib : RegexpLib} {codecLib : CodecLib} {templateLib : TemplateLib}.

Lemma lookupCookie_store c jar :
  lookupCookie (Name c) (Client.storeCookies jar [c]) = Some c.
Proof. unfold Client.storeCookies. cbn [app lookupCookie]. by rewrite String.eqb_refl. Qed.

(** X13.  A submission whose [match] compiles is answered with the control page
    of the caller's rules followed by the new rule, and with one cookie,
    [rules], for the path [/] and not readable by scripts.  When the codec
    reads back what it wrote for that list, the client's next request
    carries exactly that list: the rules it had, in their order, then the
    new one. *)
Theorem indexHandler_appends (r : Request) (re : Regexp) :
  Method r = "POST" ->
  Compile (FormValue r "match") = Value re ->
  let added := getRules r ++ [mkRule (FormValue r "match") (FormValue r "replace")] in
  DecodeString (EncodeToString (Marshal added)) = Value (Marshal added) ->
  Unmarshal (Marshal added) = Value added ->
  StatusCode (indexHandler r) = 200%nat
  /\ RespBody (indexHandler r) = ExecuteTemplate "index.html" added
  /\ SetCookies (indexHandler r)
     = [mkCookie "rules" (EncodeToString (Marshal added)) "/" true]
  /\ (forall next,
         Cookies next = Client.storeCookies (Cookies r) (SetCookies (indexHandler r)) ->
         getRules next = added).
Proof.
  intros Hpost Hcompile added Hdecode Hunmarshal.
  assert (Hout : indexHandler r
                 = {| StatusCode := 200; RespHeader := ∅;
                      SetCookies := [mkCookie "rules" (EncodeToString (Marshal added)) "/" true];
                      RespBody := ExecuteTemplate "index.html" added |}).
  { unfold indexHandler. by rewrite Hpost, Hcompile. }
  rewrite Hout. cbn [StatusCode RespBody SetCookies]. repeat split.
  intros next Hnext. unfold getRules. rewrite Hnext.
  rewrite (lookupCookie_store (mkCookie "rules" (EncodeToString (Marshal added)) "/" true)).
  cbn [CookieValue]. by rewrite Hdecode, Hunmarshal.
Qed.

End Adding.

Lemma indexHandler_appends_witness :
  let r := Demo.post "bar" "baz" [Demo.rulesCookie [mkRule "foo" "bar"]] in
  let added := [mkRule "foo" "bar"; mkRule "bar" "baz"] in
  StatusCode (Demo.index r) = 200%nat
  /\ RespBody (Demo.index r) = Demo.page added
  /\ SetCookies (Demo.index r) = [Demo.rulesCookie added]
  /\ (forall next,
         Cookies next = Client.storeCookies (Cookies r) (SetCookies (Demo.index r)) ->
         Demo.rulesOf next = added).
Proof.
  intros r added.
  apply (indexHandler_appends (regexpLib := Demo.regexp) (codecLib := Demo.codec)
           (templateLib := Demo.template) r "bar").
  - reflexivity.
  - vm_compute. reflexivity.
  - vm_compute. reflexivity.
  - vm_compute. reflexivity.
Defined.

(** ** Failures and the shape of the answer *)

Section Answers.

Context {urlLib : UrlLib} {htmlLib : HtmlLib} {regexpLib : RegexpLib}
        {mimeLib : MimeLib} {codecLib : CodecLib} {network : Network}.

(** X14.  When the upstream cannot be reached, or its body cannot be read, the
    client gets status 500 with the error's text and none of the upstream
    headers. *)
Theorem viewHandler_fetch_error (r : Request) (urlPrefix : string) (target : URL)
        (err : string) :
  decodeTarget (Path (ReqURL r)) (RawQuery (ReqURL r)) = Ok (urlPrefix, target) ->
  (Do (outbound r target) = Error err
   \/ exists resp, Do (outbound r target) = Value resp /\ UpBody resp = Error err) ->
  viewHandler r = Ok (httpError err 500)
  /\ StatusCode (httpError err 500) = 500%nat
  /\ RespBody (httpError err 500) = err +:+ newline.
Proof.
  intros Hpath Hfail. split; [|done]. unfold viewHandler.
  rewrite Hpath. cbn [mbind Result_bind].
  destruct Hfail as [-> | (resp & -> & ->)]; reflexivity.
Qed.

(** X15.  A page that the parser refuses is answered with status 500 and the
    parser's error, whatever the caller's rules are: a broken rule does not
    get in the way, since no text node is visited. *)
Theorem viewHandler_parse_error (r : Request) (urlPrefix : string) (target : URL)
        (resp : Upstream) (buf err : string) :
  decodeTarget (Path (ReqURL r)) (RawQuery (ReqURL r)) = Ok (urlPrefix, target) ->
  Do (outbound r target) = Value resp ->
  UpBody resp = Value buf ->
  classify resp buf = "text/html" ->
  NewDocumentFromReader buf = Error err ->
  viewHandler r = Ok (httpError err 500).
Proof.
  intros Hpath Hdo Hbody Htype Hparse. unfold viewHandler.
  rewrite Hpath. cbn [mbind Result_bind].
  rewrite Hdo, Hbody, Htype, String.eqb_refl.
  unfold rewriteHTML. by rewrite Hparse.
Qed.

(** Every answer of the handler is an error page of status 500 or the
    upstream response relayed with some body. *)
Lemma viewHandler_Ok r out :
  viewHandler r = Ok out ->
  (exists err, out = httpError err 500)
  \/ (exists urlPrefix target resp body,
         decodeTarget (Path (ReqURL r)) (RawQuery (ReqURL r)) = Ok (urlPrefix, target)
         /\ Do (outbound r target) = Value resp
         /\ out = relay resp body).
Proof.
  unfold viewHandler.
  destruct (decodeTarget _ _) as [[urlPrefix target]|] eqn:Hpath; [|discriminate].
  cbn [mbind Result_bind].
  destruct (Do (outbound r target)) as [resp|err] eqn:Hdo; [|intros [= <-]; eauto].
  destruct (UpBody resp) as [buf|err]; [|intros [= <-]; eauto].
  destruct (String.eqb _ _).
  - destruct (rewriteHTML _ _ _) as [[body|err]|]; cbn [mbind Result_bind];
      try discriminate; intros [= <-]; [right|left]; eauto 10.
  - intros [= <-]. right. eauto 10.
Qed.

(** X16.  No answer of the handler carries a [Content-Security-Policy] header. *)
Theorem viewHandler_no_policy (r : Request) (out : Response) :
  viewHandler r = Ok out ->
  RespHeader out !! "Content-Security-Policy" = None.
Proof.
  intros Hout. apply viewHandler_Ok in Hout as [[err ->]|(? & ? & resp & body & _ & _ & ->)].
  - reflexivity.
  - cbn [relay RespHeader]. apply lookup_delete_eq.
Qed.

(** X17.  An answer that is not an error page has the upstream's status and, but
    for [Content-Security-Policy], the upstream's headers, each with the
    values it came with; the handler adds no header and no cookie. *)
Theorem viewHandler_relays (r : Request) (urlPrefix : string) (target : URL)
        (resp : Upstream) (out : Response) :
  decodeTarget (Path (ReqURL r)) (RawQuery (ReqURL r)) = Ok (urlPrefix, target) ->
  Do (outbound r target) = Value resp ->
  viewHandler r = Ok out ->
  (forall err, out <> httpError err 500) ->
  StatusCode out = UpStatusCode resp
  /\ SetCookies out = []
  /\ forall key, key <> "Content-Security-Policy" ->
       RespHeader out !! key = UpHeader resp !! key.
Proof.
  intros Hpath Hdo Hout Hne.
  apply viewHandler_Ok in Hout as [[err ->]|(p' & t' & resp' & body & Hpath' & Hdo' & ->)].
  - by destruct (Hne err).
  - rewrite Hpath in Hpath'. injection Hpath' as <- <-.
    rewrite Hdo in Hdo'. injection Hdo' as <-.
    repeat split. intros key Hkey. by apply relay_header.
Qed.

(** X18.  The handler asks the network for one thing: the inbound request with
    the target as its URL and host, without [Accept-Encoding], and with its
    method, body, cookies and other headers as they came.  Two networks
    that answer that request alike give the same outcome. *)
Theorem viewHandler_sends (r : Request) (urlPrefix : string) (target : URL) :
  decodeTarget (Path (ReqURL r)) (RawQuery (ReqURL r)) = Ok (urlPrefix, target) ->
  let sent := outbound r target in
  ReqURL sent = target
  /\ ReqHost sent = Host target
  /\ Method sent = Method r /\ ReqBody sent = ReqBody r /\ Cookies sent = Cookies r
  /\ ReqHeader sent !! "Accept-Encoding" = None
  /\ ReqHeader sent !! "Host" = Some [Host target]
  /\ (forall key, key <> "Accept-Encoding" -> key <> "Host" ->
        ReqHeader sent !! key = ReqHeader r !! key)
  /\ (forall other : Network,
        @Do other sent = @Do network sent ->
        viewHandler (network := other) r = viewHandler (network := network) r).
Proof.
  intros Hpath sent. repeat split.
  - apply lookup_delete_eq.
  - cbn [sent outbound ReqHeader]. rewrite lookup_delete_ne by done.
    apply lookup_insert_eq.
  - intros key H1 H2. cbn [sent outbound ReqHeader].
    rewrite lookup_delete_ne by done. by rewrite lookup_insert_ne.
  - intros other Hsame. unfold viewHandler. rewrite Hpath. cbn [mbind Result_bind].
    fold sent. by rewrite Hsame.
Qed.

End Answers.

Lemma viewHandler_fetch_error_witness :
  (Demo.view Demo.unreachable (Demo.get "/view/https/example.com/" [])
   = Ok (httpError "dial tcp: connection refused" 500)
   /\ StatusCode (httpError "dial tcp: connection refused" 500) = 500%nat
   /\ RespBody (httpError "dial tcp: connection refused" 500)
      = "dial tcp: connection refused" +:+ newline)
  /\ (Demo.view (Demo.serving Demo.truncated) (Demo.get "/view/https/example.com/" [])
      = Ok (httpError "unexpected EOF" 500)
      /\ StatusCode (httpError "unexpected EOF" 500) = 500%nat
      /\ RespBody (httpError "unexpected EOF" 500) = "unexpected EOF" +:+ newline).
Proof.
  split.
  - apply (viewHandler_fetch_error (network := Demo.unreachable)
             (Demo.get "/view/https/example.com/" []) "/view/https/example.com/"
             (mkURL "https" "example.com" "/" "" "")); [reflexivity|].
    left. reflexivity.
  - apply (viewHandler_fetch_error (network := Demo.serving Demo.truncated)
             (Demo.get "/view/https/example.com/" []) "/view/https/example.com/"
             (mkURL "https" "example.com" "/" "" "")); [reflexivity|].
    right. exists Demo.truncated. split; reflexivity.
Defined.

Lemma viewHandler_parse_error_witness :
  viewHandler (urlLib := Demo.url) (htmlLib := Demo.failingReader)
    (regexpLib := Demo.regexp) (mimeLib := Demo.mime) (codecLib := Demo.codec)
    (network := Demo.serving (Demo.page200 "text/html" "hi"))
    (Demo.get "/view/https/example.com/" [Demo.rulesCookie [mkRule "(" "x"]])
  = Ok (httpError "unexpected EOF" 500).
Proof.
  apply (viewHandler_parse_error (htmlLib := Demo.failingReader)
           (network := Demo.serving (Demo.page200 "text/html" "hi"))
           (Demo.get "/view/https/example.com/" [Demo.rulesCookie [mkRule "(" "x"]])
           "/view/https/example.com/" (mkURL "https" "example.com" "/" "" "")
           (Demo.page200 "text/html" "hi") "hi").
  - reflexivity.
  - reflexivity.
  - reflexivity.
  - vm_compute. reflexivity.
  - reflexivity.
Defined.

Lemma viewHandler_no_policy_witness :
  RespHeader (relay Demo.guarded "not here") !! "Content-Security-Policy" = None.
Proof.
  apply (viewHandler_no_policy (urlLib := Demo.url) (htmlLib := Demo.html)
           (regexpLib := Demo.regexp) (mimeLib := Demo.mime) (codecLib := Demo.codec)
           (network := Demo.serving Demo.guarded)
           (Demo.get "/view/https/example.com/missing" [])).
  vm_compute. reflexivity.
Defined.

Lemma viewHandler_relays_witness :
  let out := relay Demo.guarded "not here" in
  StatusCode out = 404%nat
  /\ SetCookies out = []
  /\ forall key, key <> "Content-Security-Policy" ->
       RespHeader out !! key = UpHeader Demo.guarded !! key.
Proof.
  intros out.
  apply (viewHandler_relays (urlLib := Demo.url) (htmlLib := Demo.html)
           (regexpLib := Demo.regexp) (mimeLib := Demo.mime) (codecLib := Demo.codec)
           (network := Demo.serving Demo.guarded)
           (Demo.get "/view/https/example.com/missing" [])
           "/view/https/example.com/" (mkURL "https" "example.com" "/missing" "" "")
           Demo.guarded out).
  - reflexivity.
  - reflexivity.
  - vm_compute. reflexivity.
  - intros err Herr. apply (f_equal StatusCode) in Herr. discriminate.
Defined.

Lemma viewHandler_sends_witness :
  let r := Demo.get "/view/https/example.com/a" [] in
  let sent := outbound r (mkURL "https" "example.com" "/a" "" "") in
  ReqHost sent = "example.com"
  /\ ReqHeader sent !! "Accept-Encoding" = None
  /\ ReqHeader sent !! "Host" = Some ["example.com"].
Proof.
  intros r sent.
  pose proof (viewHandler_sends (urlLib := Demo.url) (htmlLib := Demo.html)
                (regexpLib := Demo.regexp) (mimeLib := Demo.mime) (codecLib := Demo.codec)
                (network := Demo.unreachable) r
                "/view/https/example.com/" (mkURL "https" "example.com" "/a" "" "")
                eq_refl) as (_ & Hhost & _ & _ & _ & Henc & Hh & _).
  exact (conj Hhost (conj Henc Hh)).
Defined.

(** ** When the handler does not panic *)

Section NoPanic.

Context {urlLib : UrlLib} {htmlLib : HtmlLib} {regexpLib : RegexpLib}
        {mimeLib : MimeLib} {codecLib : CodecLib} {network : Network}.

Lemma rewriteAttr_succeeds tags attr urlPrefix n :
  Goquery.matches tags n = true -> linkParses tags attr n ->
  exists n', rewriteAttr attr urlPrefix n = Ok n'.
Proof.
  intros Hm Hlink. unfold rewriteAttr.
  assert (Hhref : exists href, rewriteHref (Goquery.AttrOr n attr "") urlPrefix = Ok href).
  { destruct (absolute (Goquery.AttrOr n attr "")) eqn:Habs.
    - destruct (Hlink Hm Habs) as [parsed Hparsed].
      by apply (rewriteHref_parsed _ _ parsed).
    - unfold rewriteHref. unfold absolute in Habs. rewrite Habs.
      destruct (Strings.HasPrefix _ "/"); eauto. }
  destruct Hhref as [href ->]. cbn [mbind Result_bind].
  destruct (0 <? String.length href)%nat; eauto.
Qed.

Lemma eachFrom_succeeds tags attr urlPrefix n :
  Forall (linkParses tags attr) (preorder n) ->
  exists n', Goquery.eachFrom tags (rewriteAttr attr urlPrefix) n = Ok n'.
Proof.
  induction n as [t d attrs ch IH] using Node_forall_ind.
  cbn [preorder nodeChildren]. intros Hall.
  apply Forall_cons_1 in Hall as [Hn Hch].
  cbn [Goquery.eachFrom nodeChildren].
  assert (Hmap : exists ch', mapM (Goquery.eachFrom tags (rewriteAttr attr urlPrefix)) ch = Ok ch').
  { clear Hn. induction IH as [|c ch Hc _ IHch]; [by exists []|].
    cbn [flat_map] in Hch. apply Forall_app in Hch as [Hc' Hch].
    destruct (Hc Hc') as [c' Hc'']. destruct (IHch Hch) as [ch' Hch'].
    cbn [mapM]. rewrite Hc'', Hch'. eauto. }
  destruct Hmap as [ch' ->].
  destruct (Goquery.matches tags (mkNode t d attrs ch)) eqn:Hm.
  - destruct (rewriteAttr_succeeds tags attr urlPrefix _ Hm Hn) as [[t' d' attrs' ch0] ->].
    eauto.
  - eauto.
Qed.

Lemma FindEach_succeeds tags attr urlPrefix doc :
  Forall (linkParses tags attr) (descendants doc) ->
  exists doc', Goquery.FindEach tags (rewriteAttr attr urlPrefix) doc = Ok doc'.
Proof.
  destruct doc as [t d attrs ch]. unfold descendants. cbn [nodeChildren Goquery.FindEach].
  intros Hall.
  assert (Hmap : exists ch', mapM (Goquery.eachFrom tags (rewriteAttr attr urlPrefix)) ch = Ok ch').
  { induction ch as [|c ch IHch]; [by exists []|].
    cbn [flat_map] in Hall. apply Forall_app in Hall as [Hc Hch].
    destruct (eachFrom_succeeds tags attr urlPrefix c Hc) as [c' Hc'].
    destruct (IHch Hch) as [ch' Hch'].
    cbn [mapM]. rewrite Hc', Hch'. eauto. }
  destruct Hmap as [ch' ->]. cbn [mbind Result_bind]. eauto.
Qed.

Lemma getAttributeValue_otherAttrs attr other attrs :
  other <> attr ->
  Goquery.getAttributeValue other (otherAttrs attr attrs)
  = Goquery.getAttributeValue other attrs.
Proof.
  intros Hne. unfold otherAttrs. induction attrs as [|a attrs IH]; [done|]. simpl.
  destruct (String.eqb_spec (Key a) attr) as [Ha|Ha]; simpl.
  - destruct (String.eqb_spec (Key a) other); [congruence|done].
  - by rewrite IH.
Qed.

Lemma besides_sameLink tags attr other n n' :
  other <> attr ->
  besides tags attr n' = besides tags attr n ->
  Forall2 (sameLink other) (preorder n') (preorder n).
Proof.
  intros Hne. revert n'. induction n as [t d attrs ch IH] using Node_forall_ind.
  intros [t' d' attrs' ch']. cbn [besides]. intros [= -> -> Hattrs Hch].
  change (Goquery.matches tags (mkNode t d attrs' ch'))
    with (Goquery.matches tags (mkNode t d attrs ch)) in Hattrs.
  cbn [preorder nodeChildren]. constructor.
  - repeat split. cbn [nodeAttr].
    destruct (Goquery.matches tags (mkNode t d attrs ch)); [|by rewrite Hattrs].
    rewrite <- (getAttributeValue_otherAttrs attr other attrs') by done.
    rewrite Hattrs. by apply getAttributeValue_otherAttrs.
  - clear Hattrs. revert ch' Hch.
    induction IH as [|c ch Hc _ IHch]; intros [|c' ch']; cbn [map]; try discriminate.
    + constructor.
    + intros [= Hc' Hch']. cbn [flat_map]. apply Forall2_app; [by apply Hc|by apply IHch].
Qed.

Lemma besidesIn_sameLink tags attr other doc doc' :
  other <> attr ->
  besidesIn tags attr doc' = besidesIn tags attr doc ->
  Forall2 (sameLink other) (descendants doc') (descendants doc).
Proof.
  intros Hne. destruct doc as [t d attrs ch], doc' as [t' d' attrs' ch'].
  unfold descendants. cbn [besidesIn nodeChildren]. intros [= _ _ _ Hch].
  revert ch' Hch. induction ch as [|c ch IHch]; intros [|c' ch']; cbn [map]; try discriminate.
  - constructor.
  - intros [= Hc Hch]. cbn [flat_map].
    apply Forall2_app; [by apply (besides_sameLink tags attr)|by apply IHch].
Qed.

Lemma linkParses_sameLink tags other nodes' nodes :
  Forall2 (sameLink other) nodes' nodes ->
  Forall (linkParses tags other) nodes -> Forall (linkParses tags other) nodes'.
Proof.
  induction 1 as [|m' m nodes' nodes (Ht & Hd & Hv) _ IH]; intros Hall; [done|].
  apply Forall_cons_1 in Hall as [Hm Hall]. constructor; [|by apply IH].
  unfold linkParses, Goquery.matches, Goquery.AttrOr in *. by rewrite Ht, Hd, Hv.
Qed.

(** The links of a parsed page are rewritten and its text is rewritten
    without a panic when every link that is handed to [url.Parse] parses and
    every rule compiles. *)
Lemma rewriteHTML_answers r urlPrefix buf doc compiled :
  NewDocumentFromReader buf = Value doc ->
  compiledRules (getRules r) = Some compiled ->
  linksParse doc ->
  exists result, rewriteHTML r urlPrefix buf = Ok result.
Proof.
  intros Hdoc Hrules (Hhref & Hsrc & Haction). unfold rewriteHTML. rewrite Hdoc.
  destruct (FindEach_succeeds _ _ urlPrefix doc Hhref) as [doc1 H1]. rewrite H1.
  cbn [mbind Result_bind].
  pose proof (FindEach_besides _ _ _ _ _ H1) as Hsame1.
  assert (Hsrc1 : Forall (linkParses ["img"; "script"] "src") (descendants doc1)).
  { eapply linkParses_sameLink; [|exact Hsrc].
    by apply (besidesIn_sameLink ["a"; "link"] "href"). }
  assert (Haction1 : Forall (linkParses ["form"] "action") (descendants doc1)).
  { eapply linkParses_sameLink; [|exact Haction].
    by apply (besidesIn_sameLink ["a"; "link"] "href"). }
  destruct (FindEach_succeeds _ _ urlPrefix doc1 Hsrc1) as [doc2 H2]. rewrite H2.
  cbn [mbind Result_bind].
  pose proof (FindEach_besides _ _ _ _ _ H2) as Hsame2.
  assert (Haction2 : Forall (linkParses ["form"] "action") (descendants doc2)).
  { eapply linkParses_sameLink; [|exact Haction1].
    by apply (besidesIn_sameLink ["img"; "script"] "src"). }
  destruct (FindEach_succeeds _ _ urlPrefix doc2 Haction2) as [doc3 H3]. rewrite H3.
  cbn [mbind Result_bind].
  rewrite (Walk_compiled _ compiled doc3 Hrules). cbn [mbind Result_bind]. eauto.
Qed.

(** X19.  The handler answers, and does not panic, when the path has its four
    parts, every rule of the caller compiles and every link of the page
    that is handed to [url.Parse] parses. *)
Theorem viewHandler_answers (r : Request) (urlPrefix : string) (target : URL)
        (resp : Upstream) (buf : string) (doc : Node)
        (compiled : list (Regexp * string)) :
  decodeTarget (Path (ReqURL r)) (RawQuery (ReqURL r)) = Ok (urlPrefix, target) ->
  Do (outbound r target) = Value resp ->
  UpBody resp = Value buf ->
  NewDocumentFromReader buf = Value doc ->
  compiledRules (getRules r) = Some compiled ->
  linksParse doc ->
  exists out, viewHandler r = Ok out.
Proof.
  intros Hpath Hdo Hbody Hdoc Hrules Hlinks. unfold viewHandler.
  rewrite Hpath. cbn [mbind Result_bind]. rewrite Hdo, Hbody.
  destruct (String.eqb _ _); [|eauto].
  destruct (rewriteHTML_answers (outbound r target) urlPrefix buf doc compiled
              Hdoc Hrules Hlinks) as [[body|err] ->]; cbn [mbind Result_bind]; eauto.
Qed.

End NoPanic.

Lemma viewHandler_answers_witness :
  exists out,
    Demo.view (Demo.serving (Demo.page200 "text/html"
                 "<form action=/search><img src=//cdn.example.org/x.png>foo</form>"))
              (Demo.get "/view/https/example.com/" [Demo.rulesCookie [mkRule "foo" "bar"]])
    = Ok out.
Proof.
  apply (viewHandler_answers (urlLib := Demo.url) (htmlLib := Demo.html)
           (regexpLib := Demo.regexp) (mimeLib := Demo.mime) (codecLib := Demo.codec)
           (network := Demo.serving (Demo.page200 "text/html"
              "<form action=/search><img src=//cdn.example.org/x.png>foo</form>"))
           (Demo.get "/view/https/example.com/" [Demo.rulesCookie [mkRule "foo" "bar"]])
           "/view/https/example.com/" (mkURL "https" "example.com" "/" "" "")
           (Demo.page200 "text/html"
              "<form action=/search><img src=//cdn.example.org/x.png>foo</form>")
           "<form action=/search><img src=//cdn.example.org/x.png>foo</form>"
           (mkNode DocumentNode "" []
              [mkNode ElementNode "html" []
                 [mkNode ElementNode "head" [] [];
                  mkNode ElementNode "body" []
                    [mkNode ElementNode "form" [mkAttribute "" "action" "/search"]
                       [mkNode ElementNode "img"
                          [mkAttribute "" "src" "//cdn.example.org/x.png"] [];
                        mkNode TextNode "foo" [] []]]]])
           [("foo", "bar")]).
  - reflexivity.
  - reflexivity.
  - reflexivity.
  - reflexivity.
  - vm_compute. reflexivity.
  - unfold linksParse, descendants.
    cbn [flat_map preorder nodeChildren app].
    split; [|split];
      repeat (apply Forall_cons_2;
              [intros Hm Habs;
               first [discriminate Hm | discriminate Habs | (eexists; reflexivity)]|]);
      apply Forall_nil_2.
Defined.

(** ** Following a rewritten root-relative link *)

Section SameOrigin.

Import Strings StringsFacts.

Context {urlLib : UrlLib}.

(** X4.  A path that ends after the host, such as [/view/https/example.com],
    is the request for the root of the target, and the links of its page
    are resolved under the path followed by a slash. *)
Theorem decodeTarget_bare_host (path rawQuery : string) :
  countByte path slash = 3%nat ->
  exists urlPrefix target,
    decodeTarget path rawQuery = Ok (urlPrefix, target)
    /\ Path target = "/"
    /\ urlPrefix = path +:+ "/".
Proof.
  intros Hcount. pose proof (Split_count path slash) as Hlen.
  pose proof (Join_Split path slash) as Hjoin.
  unfold decodeTarget.
  destruct (Split path slash) as [|a [|b [|c [|d [|e rest]]]]]; simpl in Hlen; try lia.
  eexists _, _. split; [reflexivity|]. split; [reflexivity|].
  cbn [firstn]. by rewrite <- Hjoin.
Qed.

Lemma Split_avoids s sep c :
  ContainsByte s c = false ->
  Forall (fun part => ContainsByte part c = false) (Split s sep).
Proof.
  induction s as [|d s IH]; intros Hs; [by repeat constructor|].
  simpl in Hs. apply orb_false_elim in Hs as [Hd Hs]. specialize (IH Hs). simpl.
  destruct (Ascii.eqb d sep).
  - by constructor.
  - pose proof (Split_not_nil s sep). destruct (Split s sep) as [|x xs]; [done|].
    inversion IH; subst. constructor; [|done]. simpl. by rewrite Hd.
Qed.

Lemma fold_step_avoids (P : string -> Prop) elems kept :
  Forall P elems -> Forall P kept ->
  Forall P (fold_left (Path.step true) elems kept).
Proof.
  revert kept. induction elems as [|e elems IH]; intros kept He Hk; [done|].
  apply Forall_cons_1 in He as [He Helems]. cbn [fold_left]. apply IH; [done|].
  unfold Path.step. destruct (String.eqb e ""); [done|].
  destruct (String.eqb e "."); [done|].
  destruct (String.eqb e "..").
  - destruct kept as [|top kept]; [done|]. by apply Forall_cons_1 in Hk as [_ Hk].
  - by constructor.
Qed.

Lemma Join_avoids l c :
  Ascii.eqb slash c = false ->
  Forall (fun part => ContainsByte part c = false) l ->
  ContainsByte (Join l "/") c = false.
Proof.
  intros Hc. induction 1 as [|x l Hx Hl IH]; [done|].
  destruct l as [|y l]; [done|].
  change (Join (x :: y :: l) "/") with (x +:+ "/" +:+ Join (y :: l) "/").
  rewrite !ContainsByte_app, Hx, IH.
  change (ContainsByte "/" c) with (Ascii.eqb slash c || false). by rewrite Hc.
Qed.

Lemma keptOf_avoids rest c :
  Ascii.eqb slash c = false -> ContainsByte rest c = false ->
  ContainsByte (Join (keptOf rest) "/") c = false.
Proof.
  intros Hc Hrest. apply Join_avoids; [done|]. unfold keptOf.
  apply Forall_rev. apply fold_step_avoids; [by apply Split_avoids|done].
Qed.

Lemma keptOf_no_slash rest :
  Forall (fun part => ContainsByte part slash = false) (keptOf rest).
Proof.
  unfold keptOf. apply Forall_rev. apply fold_step_avoids; [apply Split_parts|done].
Qed.

(** Splitting what was joined, for parts without a slash. *)
Lemma Split_Join l :
  l <> [] -> Forall (fun part => ContainsByte part slash = false) l ->
  Split (Join l "/") slash = l.
Proof.
  intros Hl. induction 1 as [|x l Hx Hall IH]; [done|].
  destruct l as [|y l].
  - cbn [Join]. clear IH Hl Hall. induction x as [|d x IHx]; [done|].
    simpl in Hx. apply orb_false_elim in Hx as [Hd Hx]. simpl. by rewrite Hd, (IHx Hx).
  - change (Join (x :: y :: l) "/") with (x +:+ String slash (Join (y :: l) "/")).
    rewrite Split_app by done. by rewrite IH.
Qed.

Lemma keptOf_Forall rest c :
  ContainsByte rest c = false ->
  Forall (fun part => ContainsByte part c = false) (keptOf rest).
Proof.
  intros Hrest. unfold keptOf. apply Forall_rev.
  apply fold_step_avoids; [by apply Split_avoids|done].
Qed.

(** The value that [rewriteAttr] computes for a rooted link under a
    prefix, by the elements that are kept of the link. *)
Lemma rewriteHref_kept scheme host rest :
  element scheme = true -> element host = true ->
  HasPrefix (String slash rest) "//" = false ->
  within (Split rest slash) 0 = true ->
  rewriteHref (String slash rest) ("/view/" +:+ scheme +:+ "/" +:+ host +:+ "/")
  = Ok ("/" +:+ Join ("view" :: scheme :: host :: keptOf rest) "/").
Proof.
  intros Hs Hh Hproto Hw. unfold rewriteHref.
  change (HasPrefix (String slash rest) "http://") with false.
  change (HasPrefix (String slash rest) "https://") with false.
  rewrite Hproto. cbn [orb].
  assert (Hr : HasPrefix (String slash rest) "/" = true) by (by destruct rest).
  rewrite Hr. f_equal. unfold Path.Join.
  change (List.filter _ ["/view/" +:+ scheme +:+ "/" +:+ host +:+ "/"; String slash rest])
    with ["/view/" +:+ scheme +:+ "/" +:+ host +:+ "/"; String slash rest].
  cbn [Join]. change (String slash rest) with ("/" +:+ rest).
  by rewrite Clean_prefixed.
Qed.

(** *** The mux on the paths of the proxy *)

Lemma element_not_empty e : element e = true -> e <> "".
Proof. unfold element. by destruct e. Qed.

Lemma fold_step_elements elems kept :
  Forall (fun e => ContainsByte e slash = false) elems ->
  Forall (fun e => element e = true) kept ->
  Forall (fun e => element e = true) (fold_left (Path.step true) elems kept).
Proof.
  revert kept. induction elems as [|e elems IH]; intros kept He Hk; [done|].
  apply Forall_cons_1 in He as [He Helems]. cbn [fold_left]. apply IH; [done|].
  unfold Path.step.
  destruct (String.eqb e "") eqn:H1; [done|].
  destruct (String.eqb e ".") eqn:H2; [done|].
  destruct (String.eqb e "..") eqn:H3.
  - destruct kept as [|top kept]; [done|]. by apply Forall_cons_1 in Hk as [_ Hk].
  - apply Forall_cons_2; [|done]. unfold element. by rewrite H1, H2, H3, He.
Qed.

Lemma keptOf_elements rest : Forall (fun e => element e = true) (keptOf rest).
Proof.
  unfold keptOf. apply Forall_rev. apply fold_step_elements; [apply Split_parts|done].
Qed.

Lemma fold_step_push elems kept :
  Forall (fun e => element e = true) elems ->
  fold_left (Path.step true) elems kept = rev elems ++ kept.
Proof.
  revert kept. induction elems as [|e elems IH]; intros kept He; [done|].
  apply Forall_cons_1 in He as [He Helems]. cbn [fold_left rev].
  rewrite step_plain by done. rewrite IH by done. by rewrite <- List.app_assoc.
Qed.

Lemma elements_no_slash l :
  Forall (fun e => element e = true) l ->
  Forall (fun e => ContainsByte e slash = false) l.
Proof. induction 1; constructor; [by apply element_no_slash|done]. Qed.

Lemma Split_Join_snoc l x :
  l <> [] -> Forall (fun e => ContainsByte e slash = false) l ->
  Split (Join l "/" +:+ String slash x) slash = l ++ Split x slash.
Proof.
  intros Hl. induction 1 as [|a l Ha Hall IH]; [done|].
  destruct l as [|b l].
  - cbn [Join app]. by rewrite Split_app.
  - change (Join (a :: b :: l) "/") with (a +:+ String slash (Join (b :: l) "/")).
    rewrite StringsFacts.app_assoc.
    change (String slash (Join (b :: l) "/") +:+ String slash x)
      with (String slash (Join (b :: l) "/" +:+ String slash x)).
    rewrite Split_app by done. by rewrite IH.
Qed.

(** [path.Clean] leaves a rooted path of proper elements as it is. *)
Lemma Clean_elements l :
  Forall (fun e => element e = true) l ->
  Path.Clean ("/" +:+ Join l "/") = "/" +:+ Join l "/".
Proof.
  intros Hl. rewrite Clean_rooted. f_equal.
  destruct l as [|a l]; [reflexivity|].
  rewrite Split_Join; [|done|by apply elements_no_slash].
  rewrite fold_step_push by done. by rewrite app_nil_r, rev_involutive.
Qed.

(** It removes the slash that ends one. *)
Lemma Clean_elements_slash l :
  l <> [] -> Forall (fun e => element e = true) l ->
  Path.Clean ("/" +:+ Join l "/" +:+ "/") = "/" +:+ Join l "/".
Proof.
  intros Hne Hl. rewrite Clean_rooted. f_equal.
  change (Join l "/" +:+ "/") with (Join l "/" +:+ String slash "").
  rewrite Split_Join_snoc; [|done|by apply elements_no_slash].
  rewrite fold_left_app, (fold_step_push l) by done.
  cbn. by rewrite app_nil_r, rev_involutive.
Qed.

Lemma app_not_empty a b : b <> "" -> a +:+ b <> "".
Proof. destruct a; [done|]. by rewrite app_cons. Qed.

Lemma lastIs_app a b c : b <> "" -> Mux.lastIs (a +:+ b) c = Mux.lastIs b c.
Proof.
  intros Hb. induction a as [|d a IH]; [done|].
  rewrite app_cons. pose proof (app_not_empty a b Hb) as Hab.
  cbn [Mux.lastIs]. by destruct (a +:+ b).
Qed.

Lemma lastIs_none e c : ContainsByte e c = false -> Mux.lastIs e c = false.
Proof.
  induction e as [|d e IH]; [done|]. cbn [ContainsByte]. intros He.
  apply orb_false_elim in He as [Hd He]. cbn [Mux.lastIs].
  destruct e; [done|]. by apply IH.
Qed.

Lemma lastIs_elements l :
  l <> [] -> Forall (fun e => element e = true) l ->
  Mux.lastIs ("/" +:+ Join l "/") slash = false.
Proof.
  intros Hne. induction 1 as [|a l Ha Hall IH]; [done|].
  destruct l as [|b l].
  - cbn [Join]. rewrite lastIs_app by (by apply element_not_empty).
    apply lastIs_none. by apply element_no_slash.
  - change ("/" +:+ Join (a :: b :: l) "/")
      with ("/" +:+ a +:+ "/" +:+ Join (b :: l) "/").
    rewrite <- !StringsFacts.app_assoc.
    rewrite StringsFacts.app_assoc.
    rewrite lastIs_app; [by apply IH|].
    by apply app_not_empty, Join_nonempty, element_not_empty;
      apply Forall_cons_1 in Hall as [? _].
Qed.

Lemma length_app a b : String.length (a +:+ b) = (String.length a + String.length b)%nat.
Proof. induction a as [|d a IH]; [done|]. rewrite app_cons. simpl. by rewrite IH. Qed.

Lemma Join_elements_not_empty a l :
  Forall (fun e => element e = true) (a :: l) -> Join (a :: l) "/" <> "".
Proof.
  intros Hl. apply Forall_cons_1 in Hl as [Ha _].
  by apply Join_nonempty, element_not_empty.
Qed.

Lemma eqb_root_false x : x <> "" -> String.eqb ("/" +:+ x) "/" = false.
Proof. by destruct x. Qed.

(** The mux does not redirect a rooted path of proper elements... *)
Lemma cleanPath_elements l :
  Forall (fun e => element e = true) l ->
  Mux.cleanPath ("/" +:+ Join l "/") = "/" +:+ Join l "/".
Proof.
  intros Hl. unfold Mux.cleanPath.
  change ("/" +:+ Join l "/") with (String slash (Join l "/")).
  cbv beta iota zeta. change (Ascii.eqb slash slash) with true. cbv iota.
  change (String slash (Join l "/")) with ("/" +:+ Join l "/").
  rewrite Clean_elements by done.
  destruct l as [|a l]; [reflexivity|].
  by rewrite lastIs_elements.
Qed.

(** ... nor one that ends with a slash. *)
Lemma cleanPath_elements_slash l :
  l <> [] -> Forall (fun e => element e = true) l ->
  Mux.cleanPath ("/" +:+ Join l "/" +:+ "/") = "/" +:+ Join l "/" +:+ "/".
Proof.
  intros Hne Hl. unfold Mux.cleanPath.
  change ("/" +:+ Join l "/" +:+ "/") with (String slash (Join l "/" +:+ "/")).
  cbv beta iota zeta. change (Ascii.eqb slash slash) with true. cbv iota.
  change (String slash (Join l "/" +:+ "/")) with ("/" +:+ Join l "/" +:+ "/").
  rewrite Clean_elements_slash by done.
  assert (Hlast : Mux.lastIs ("/" +:+ Join l "/" +:+ "/") slash = true).
  { rewrite <- (StringsFacts.app_assoc "/" (Join l "/") "/").
    by rewrite lastIs_app. }
  rewrite Hlast. destruct l as [|a l]; [done|].
  rewrite eqb_root_false by (by apply Join_elements_not_empty).
  cbn [andb negb].
  destruct (_ && Strings.HasPrefix _ _); [done|].
  by rewrite StringsFacts.app_assoc.
Qed.

(** A path that the mux does not redirect is a rooted path of proper
    elements, with or without a slash at its end. *)
Lemma cleanPath_fixed p :
  Mux.cleanPath p = p ->
  exists l, Forall (fun e => element e = true) l
            /\ (p = "/" +:+ Join l "/" \/ (l <> [] /\ p = "/" +:+ Join l "/" +:+ "/")).
Proof.
  destruct p as [|c rest]; [discriminate|].
  unfold Mux.cleanPath. cbv beta iota zeta.
  destruct (Ascii.eqb_spec c slash) as [->|Hc].
  - change (String slash rest) with ("/" +:+ rest).
    rewrite Clean_rooted. fold (keptOf rest).
    pose proof (keptOf_elements rest) as Hl. intros Hp.
    exists (keptOf rest). split; [done|].
    destruct (_ && negb _) eqn:Hcond; [|by left].
    apply andb_prop in Hcond as [Hlast Hroot].
    right. split.
    { intros Hnil. rewrite Hnil in Hroot. discriminate. }
    destruct (_ && Strings.HasPrefix _ _) eqn:Hfast;
      [|by rewrite <- Hp at 1; rewrite StringsFacts.app_assoc].
    apply andb_prop in Hfast as [Hlen Hpre].
    apply HasPrefix_inv in Hpre as [x Hx].
    rewrite Hx, length_app in Hlen. apply Nat.eqb_eq in Hlen.
    destruct x as [|d [|d' x]]; simpl in Hlen; try lia.
    rewrite Hx in Hlast. rewrite lastIs_app in Hlast by done.
    cbn [Mux.lastIs] in Hlast. apply Ascii.eqb_eq in Hlast as ->.
    rewrite Hx. by rewrite StringsFacts.app_assoc.
  - intros Hp. exfalso.
    change ("/" +:+ String c rest) with (String slash (String c rest)) in Hp.
    change (Path.Clean (String slash (String c rest)))
      with ("/" +:+ Join (keptOf (String c rest)) "/") in Hp.
    destruct (_ && negb _); [destruct (_ && Strings.HasPrefix _ _)|];
      injection Hp as Hp _; by apply Hc.
Qed.

Lemma served_view redirects p :
  Mux.cleanPath p = p -> Strings.HasPrefix p "/view/" = true ->
  Mux.served redirects p = Some p.
Proof.
  intros Hclean Hview.
  assert (Hroute : Mux.route p = Mux.ViewHandler).
  { unfold Mux.route. rewrite Hclean, String.eqb_refl, Hview.
    apply HasPrefix_inv in Hview as [t ->]. reflexivity. }
  destruct redirects; cbn [Mux.served]; by rewrite Hroute.
Qed.

(** The mux does not redirect the proxy path of a scheme, a host and a path
    that it would not redirect. *)
Lemma cleanPath_proxy scheme host p :
  element scheme = true -> element host = true ->
  Mux.cleanPath p = p ->
  Mux.cleanPath ("/view/" +:+ scheme +:+ "/" +:+ host +:+ p)
  = "/view/" +:+ scheme +:+ "/" +:+ host +:+ p.
Proof.
  intros Hs Hh Hp.
  destruct (cleanPath_fixed p Hp) as (l & Hl & [-> | [Hne ->]]).
  - destruct l as [|a l].
    + replace ("/view/" +:+ scheme +:+ "/" +:+ host +:+ "/" +:+ Join [] "/")
        with ("/" +:+ Join ["view"; scheme; host] "/" +:+ "/")
        by (cbn [Join]; by rewrite !StringsFacts.app_assoc).
      apply cleanPath_elements_slash; [done|]. repeat (apply Forall_cons_2; [done|]); done.
    + change ("/view/" +:+ scheme +:+ "/" +:+ host +:+ "/" +:+ Join (a :: l) "/")
        with ("/" +:+ Join ("view" :: scheme :: host :: a :: l) "/").
      apply cleanPath_elements. repeat (apply Forall_cons_2; [done|]); done.
  - destruct l as [|a l]; [done|].
    replace ("/view/" +:+ scheme +:+ "/" +:+ host +:+ "/" +:+ Join (a :: l) "/" +:+ "/")
      with ("/" +:+ Join ("view" :: scheme :: host :: a :: l) "/" +:+ "/")
      by (change (Join ("view" :: scheme :: host :: a :: l) "/")
            with ("view" +:+ "/" +:+ scheme +:+ "/" +:+ host +:+ "/" +:+ Join (a :: l) "/");
          by rewrite !StringsFacts.app_assoc).
    apply cleanPath_elements_slash; [done|]. repeat (apply Forall_cons_2; [done|]); done.
Qed.

(** X20.  A rooted link of a page leads back to the origin of the page: when a
    client follows the value that [rewriteAttr] gives it, the handler's
    target has the scheme and the host of the prefix and the cleaned link
    as its path. *)
Theorem followLink_root_relative (scheme host href : string) :
  element scheme = true -> element host = true ->
  avoids scheme "?#%" = true -> avoids host "?#%" = true ->
  HasPrefix href "/" = true -> HasPrefix href "//" = false ->
  contained href = true -> avoids href "?#%" = true ->
  exists value,
    rewriteHref href ("/view/" +:+ scheme +:+ "/" +:+ host +:+ "/") = Ok value
    /\ followLink value = Some (mkURL scheme host (Path.Clean href) "" "").
Proof.
  intros Hs Hh Hsa Hha Hroot Hproto Hw Havoid.
  apply HasPrefix_inv in Hroot as [rest ->].
  change ("/" +:+ rest) with (String slash rest) in *.
  eexists. split; [by apply rewriteHref_kept|].
  set (parts := "view" :: scheme :: host :: keptOf rest).
  assert (Hparts : forall c, Ascii.eqb slash c = false ->
                     ContainsByte scheme c = false -> ContainsByte host c = false ->
                     ContainsByte (String slash rest) c = false ->
                     ContainsByte "view" c = false ->
                     ContainsByte ("/" +:+ Join parts "/") c = false).
  { intros c Hc H1 H2 H3 H4.
    change ("/" +:+ Join parts "/") with (String slash (Join parts "/")).
    cbn [ContainsByte]. rewrite Hc. cbn [orb].
    apply Join_avoids; [done|]. unfold parts.
    repeat (apply Forall_cons_2; [done|]). apply keptOf_Forall.
    cbn [ContainsByte] in H3. by apply orb_false_elim in H3 as [_ H3]. }
  apply avoids_cons in Hsa as [Hs1 Hsa], Hha as [Hh1 Hha], Havoid as [Hr1 Havoid].
  apply avoids_cons in Hsa as [Hs2 Hsa], Hha as [Hh2 Hha], Havoid as [Hr2 Havoid].
  apply avoids_cons in Hsa as [Hs3 _], Hha as [Hh3 _], Havoid as [Hr3 _].
  assert (Hserved : Mux.served 10 ("/" +:+ Join parts "/") = Some ("/" +:+ Join parts "/")).
  { apply served_view.
    - apply cleanPath_elements. unfold parts.
      repeat (apply Forall_cons_2; [done|]). apply keptOf_elements.
    - apply (HasPrefix_app "/view/"). }
  unfold followLink.
  rewrite stripFragment_plain by (by apply Hparts).
  rewrite ParseRequestURI_plain by (by apply Hparts).
  rewrite Hserved. unfold decodeTarget.
  change ("/" +:+ Join parts "/") with ("" +:+ String slash (Join parts "/")).
  rewrite Split_app by done.
  rewrite Split_Join; [|done|].
  - unfold parts.
    change (Path.Clean (String slash rest)) with ("/" +:+ Join (keptOf rest) "/").
    reflexivity.
  - unfold parts. apply Forall_cons_2; [done|].
    apply Forall_cons_2; [by apply element_no_slash|].
    apply Forall_cons_2; [by apply element_no_slash|]. apply keptOf_no_slash.
Qed.

Lemma sentAsIs_avoids s c :
  safeByte c = false -> sentAsIs s = true -> ContainsByte s c = false.
Proof.
  intros Hc. induction s as [|d s IH]; [done|]. cbn [sentAsIs ContainsByte].
  intros Hs. apply andb_prop in Hs as [Hd Hs]. rewrite (IH Hs), orb_false_r.
  destruct (Ascii.eqb_spec d c) as [->|]; [congruence|done].
Qed.

Lemma querySentAsIs_avoids s c :
  safeByte c = false -> Ascii.eqb c "?"%char = false ->
  querySentAsIs s = true -> ContainsByte s c = false.
Proof.
  intros Hc Hq. induction s as [|d s IH]; [done|]. cbn [querySentAsIs ContainsByte].
  intros Hs. apply andb_prop in Hs as [Hd Hs]. rewrite (IH Hs), orb_false_r.
  destruct (Ascii.eqb_spec d c) as [->|]; [|done].
  by rewrite Hc, Hq in Hd.
Qed.

(** C1, as amended.  For a URL [u] whose scheme and host are proper path
    elements (not empty, not [.] or [..], without a slash), whose path is
    one that the mux serves as it is (rooted, without an empty, [.] or [..]
    element), and whose scheme, host, path and query are made of bytes that
    a client sends as they are (so without [#] and [%], and [?] in the
    query only): [rewriteAttr] prints the proxy path of [u] for a link that
    parses as [u], and a client that follows it brings the [/view/] handler
    to [u]'s scheme, host, path and query.  The fragment is not part of the
    request and the decoded target has none. *)
Theorem followLink_proxyPath (u : URL) :
  element (Scheme u) = true -> element (Host u) = true ->
  sentAsIs (Scheme u) = true -> sentAsIs (Host u) = true ->
  Mux.cleanPath (Path u) = Path u ->
  sentAsIs (Path u) = true ->
  querySentAsIs (RawQuery u) = true ->
  (forall href urlPrefix,
      absolute href = true -> Parse href = Value u ->
      rewriteHref href urlPrefix = Ok (proxyPath u))
  /\ followLink (proxyPath u) = Some (withoutFragment u).
Proof.
  destruct u as [scheme host path q frag]. cbn [Scheme Host Path RawQuery].
  intros Hse Hhe Hs Hh Hclean Hp Hq. split.
  { intros href urlPrefix Habs Hparse. unfold rewriteHref, absolute in *.
    rewrite Habs, Hparse. cbn [Scheme].
    apply element_not_empty in Hse. by destruct scheme. }
  pose proof (sentAsIs_avoids scheme "?" eq_refl Hs) as Hs2.
  pose proof (sentAsIs_avoids scheme "#" eq_refl Hs) as Hs3.
  pose proof (sentAsIs_avoids scheme "%" eq_refl Hs) as Hs4.
  pose proof (sentAsIs_avoids host "?" eq_refl Hh) as Hh2.
  pose proof (sentAsIs_avoids host "#" eq_refl Hh) as Hh3.
  pose proof (sentAsIs_avoids host "%" eq_refl Hh) as Hh4.
  pose proof (sentAsIs_avoids path "?" eq_refl Hp) as Hp2.
  pose proof (sentAsIs_avoids path "#" eq_refl Hp) as Hp3.
  pose proof (sentAsIs_avoids path "%" eq_refl Hp) as Hp4.
  pose proof (querySentAsIs_avoids q "#" eq_refl eq_refl Hq) as Hq3.
  pose proof (element_no_slash _ Hse) as Hs1.
  pose proof (element_no_slash _ Hhe) as Hh1.
  assert (Hroot : exists rest, path = "/" +:+ rest).
  { destruct (cleanPath_fixed path Hclean) as (l & _ & [-> | [_ ->]]); eauto. }
  destruct Hroot as [rest ->].
  pose proof (cleanPath_proxy scheme host ("/" +:+ rest) Hse Hhe Hclean) as Hmux.
  set (base := "/view/" +:+ scheme +:+ "/" +:+ host +:+ "/" +:+ rest) in *.
  assert (Hb : forall c, ContainsByte "/view/" c = false ->
                         ContainsByte scheme c = false ->
                         ContainsByte host c = false ->
                         ContainsByte ("/" +:+ rest) c = false ->
                         ContainsByte base c = false).
  { intros c H1 H2 H3 H4. unfold base.
    rewrite ContainsByte_app in H4. apply orb_false_elim in H4 as [H5 H4].
    rewrite !ContainsByte_app, H1, H2, H3, H4, H5. reflexivity. }
  assert (Hb2 : ContainsByte base "?"%char = false) by (by apply Hb).
  assert (Hb3 : ContainsByte base "#"%char = false) by (by apply Hb).
  assert (Hb4 : ContainsByte base "%"%char = false) by (by apply Hb).
  assert (Hserved : Mux.served 10 base = Some base).
  { apply served_view; [done|]. apply (HasPrefix_app "/view/"). }
  assert (Hdecode : forall q', decodeTarget base q'
            = Ok ("/view/" +:+ scheme +:+ "/" +:+ host +:+ "/",
                  mkURL scheme host ("/" +:+ rest) q' ""))
    by (intros; by apply decodeTarget_proxy).
  unfold followLink, proxyPath, withoutFragment.
  cbn [Scheme Host Path RawQuery Fragment]. fold base.
  destruct (0 <? String.length q)%nat eqn:Hlq.
  - assert (Hbq : ContainsByte (base +:+ "?" +:+ q) "#"%char = false).
    { rewrite !ContainsByte_app, Hb3, Hq3. reflexivity. }
    destruct (0 <? String.length frag)%nat.
    + rewrite stripFragment_app, ParseRequestURI_query, Hserved, Hdecode; done.
    + rewrite stripFragment_plain, ParseRequestURI_query, Hserved, Hdecode; done.
  - apply length_zero in Hlq as ->.
    destruct (0 <? String.length frag)%nat.
    + rewrite stripFragment_app, ParseRequestURI_plain, Hserved, Hdecode; done.
    + rewrite stripFragment_plain, ParseRequestURI_plain, Hserved, Hdecode; done.
Qed.

End SameOrigin.

Lemma decodeTarget_bare_host_witness :
  exists urlPrefix target,
    decodeTarget "/view/https/example.com" "" = Ok (urlPrefix, target)
    /\ Path target = "/"
    /\ urlPrefix = "/view/https/example.com" +:+ "/".
Proof. apply (decodeTarget_bare_host "/view/https/example.com" ""). reflexivity. Defined.

Lemma followLink_root_relative_witness :
  exists value,
    Demo.href "/docs/../about/./us" "/view/https/example.com/" = Ok value
    /\ followLink value = Some (mkURL "https" "example.com" "/about/us" "" "").
Proof.
  apply (followLink_root_relative (urlLib := Demo.url) "https" "example.com"
           "/docs/../about/./us"); reflexivity.
Defined.

Lemma followLink_proxyPath_witness :
  (forall href urlPrefix,
      absolute href = true ->
      Demo.parseURL href = Value (mkURL "https" "example.com" "/a/b.html" "x=1" "top") ->
      Demo.href href urlPrefix = Ok "/view/https/example.com/a/b.html?x=1#top")
  /\ followLink "/view/https/example.com/a/b.html?x=1#top"
     = Some (mkURL "https" "example.com" "/a/b.html" "x=1" "").
Proof.
  apply (followLink_proxyPath (urlLib := Demo.url)
           (mkURL "https" "example.com" "/a/b.html" "x=1" "top")); reflexivity.
Defined.

(** C1 as stated fails: a fragment is lost on the way, and an empty path
    comes back as a slash. *)
Lemma followLink_loses_fragment :
  followLink (proxyPath (mkURL "https" "example.com" "/a" "" "top"))
  <> Some (mkURL "https" "example.com" "/a" "" "top")
  /\ followLink (proxyPath (mkURL "https" "example.com" "" "" ""))
     <> Some (mkURL "https" "example.com" "" "" "").
Proof. split; vm_compute; discriminate. Qed.

(** A path that is not canonical reaches the handler as its canonical
    path, after the redirect of the mux. *)
Lemma followLink_redirected :
  followLink (proxyPath (mkURL "https" "example.com" "/a//b/../c" "" ""))
  = Some (mkURL "https" "example.com" "/a/c" "" "").
Proof. vm_compute. reflexivity. Qed.

(** ** The rules in the order of the list *)

Section InOrder.

Context {urlLib : UrlLib} {htmlLib : HtmlLib} {regexpLib : RegexpLib}
        {mimeLib : MimeLib} {codecLib : CodecLib} {network : Network}.

(** The rewriting of a parsed page: the passes over the links, the walk
    over the text nodes, the rendering. *)
Lemma rewriteHTML_passes r urlPrefix buf doc :
  NewDocumentFromReader buf = Value doc ->
  rewriteHTML r urlPrefix buf
  = (linked ← rewriteLinks urlPrefix doc;
     walked ← Walk (rewriteText (compileRules (getRules r)) (getRules r)) linked;
     Ok (OuterHtml walked)).
Proof.
  intros Hdoc. unfold rewriteHTML, rewriteLinks. rewrite Hdoc.
  destruct (Goquery.FindEach ["a"; "link"] _ doc) as [doc1|]; [|done].
  cbn [mbind Result_bind].
  destruct (Goquery.FindEach ["img"; "script"] _ doc1) as [doc2|]; [|done].
  cbn [mbind Result_bind].
  by destruct (Goquery.FindEach ["form"] _ doc2).
Qed.

(** With two rules that compile, the page is rewritten with the second
    rule applied to the output of the first on every text node. *)
Lemma rewriteHTML_two_rules r urlPrefix buf doc linked a b b' c reA reB :
  NewDocumentFromReader buf = Value doc ->
  rewriteLinks urlPrefix doc = Ok linked ->
  getRules r = [mkRule a b; mkRule b' c] ->
  Compile a = Value reA -> Compile b' = Value reB ->
  rewriteHTML r urlPrefix buf
  = Ok (OuterHtml (mapText (fun text => ReplaceAllString reB (ReplaceAllString reA text b) c)
                           linked)).
Proof.
  intros Hdoc Hlinks Hrules Ha Hb.
  rewrite (rewriteHTML_passes _ _ _ doc Hdoc), Hlinks, Hrules. cbn [mbind Result_bind].
  rewrite (Walk_compiled _ [(reA, b); (reB, c)]); [reflexivity|].
  cbn [compiledRules Match Replace]. by rewrite Ha, Hb.
Qed.

(** C8, as amended.  For a rule list [(A -> B), (B' -> C)] whose two
    expressions compile, the handler serves the page in which the data of
    every text node is what the second rule makes of the output of the
    first rule on that text, [ReplaceAll(B', ReplaceAll(A, text, B), C)]:
    the rules compose in the order of the list, each on the text that the
    one before it left.  Nothing is said here on which strings the final
    text contains. *)
Theorem viewHandler_rules_in_order (r : Request) (urlPrefix : string) (target : URL)
        (resp : Upstream) (buf : string) (doc linked : Node)
        (a b b' c : string) (reA reB : Regexp) (body : string) :
  decodeTarget (Path (ReqURL r)) (RawQuery (ReqURL r)) = Ok (urlPrefix, target) ->
  Do (outbound r target) = Value resp ->
  UpBody resp = Value buf ->
  classify resp buf = "text/html" ->
  NewDocumentFromReader buf = Value doc ->
  rewriteLinks urlPrefix doc = Ok linked ->
  getRules r = [mkRule a b; mkRule b' c] ->
  Compile a = Value reA -> Compile b' = Value reB ->
  OuterHtml (mapText (fun text => ReplaceAllString reB (ReplaceAllString reA text b) c)
                     linked) = Value body ->
  viewHandler r = Ok (relay resp body).
Proof.
  intros Hpath Hdo Hbody Htype Hdoc Hlinks Hrules Ha Hb Hrender. unfold viewHandler.
  rewrite Hpath. cbn [mbind Result_bind].
  rewrite Hdo, Hbody, Htype, String.eqb_refl.
  rewrite (rewriteHTML_two_rules (outbound r target) urlPrefix buf doc linked a b b' c reA reB);
    try done.
  cbn [mbind Result_bind]. by rewrite Hrender.
Qed.

End InOrder.

Lemma viewHandler_rules_in_order_witness :
  Demo.view (Demo.serving (Demo.page200 "text/html" "<p title=foo>a foo b</p>"))
            (Demo.get "/view/https/example.com/"
                      [Demo.rulesCookie [mkRule "foo" "bar"; mkRule "bar" "baz"]])
  = Ok (relay (Demo.page200 "text/html" "<p title=foo>a foo b</p>")
          ("<html><head></head><body><p title=" +:+ Demo.quote +:+ "foo" +:+ Demo.quote
           +:+ ">a baz b</p></body></html>")).
Proof.
  apply (viewHandler_rules_in_order (urlLib := Demo.url) (htmlLib := Demo.html)
           (regexpLib := Demo.regexp) (mimeLib := Demo.mime) (codecLib := Demo.codec)
           (network := Demo.serving (Demo.page200 "text/html" "<p title=foo>a foo b</p>"))
           (Demo.get "/view/https/example.com/"
                     [Demo.rulesCookie [mkRule "foo" "bar"; mkRule "bar" "baz"]])
           "/view/https/example.com/" (mkURL "https" "example.com" "/" "" "")
           (Demo.page200 "text/html" "<p title=foo>a foo b</p>")
           "<p title=foo>a foo b</p>"
           (mkNode DocumentNode "" []
              [mkNode ElementNode "html" []
                 [mkNode ElementNode "head" [] [];
                  mkNode ElementNode "body" []
                    [mkNode ElementNode "p" [mkAttribute "" "title" "foo"]
                       [mkNode TextNode "a foo b" [] []]]]])
           (mkNode DocumentNode "" []
              [mkNode ElementNode "html" []
                 [mkNode ElementNode "head" [] [];
                  mkNode ElementNode "body" []
                    [mkNode ElementNode "p" [mkAttribute "" "title" "foo"]
                       [mkNode TextNode "a foo b" [] []]]]])
           "foo" "bar" "bar" "baz" "foo" "bar").
  - reflexivity.
  - reflexivity.
  - reflexivity.
  - vm_compute. reflexivity.
  - reflexivity.
  - reflexivity.
  - vm_compute. reflexivity.
  - reflexivity.
  - reflexivity.
  - reflexivity.
Defined.

(** C8 as stated fails: with the rules [foo -> bar] and [bar -> xbarx] a
    text that contains [foo] ends with [bar] still in it. *)
Lemma rules_leave_B :
  let rules := [mkRule "foo" "bar"; mkRule "bar" "xbarx"] in
  contains "a foo b" "foo" = true
  /\ Walk (rewriteText (regexpLib := Demo.regexp) (compileRules rules) rules)
          (mkNode TextNode "a foo b" [] [])
     = Ok (mkNode TextNode "a xbarx b" [] [])
  /\ contains "a xbarx b" "xbarx" = true
  /\ contains "a xbarx b" "bar" = true.
Proof. repeat split; reflexivity. Qed.
